(** * Ledger and spending-limit engine of agent_payment_demo

    Shallow embedding of [src/app/src/db/queries.ts] (transaction and
    spending-limit queries), [src/money/src/services/transaction.ts]
    (transfer orchestration) and [src/app/src/services/fiat.ts]
    (withdrawal completion), over the store of [db/index.ts].

    Modelling choices:
    - the SQLite tables are lists of rows in insertion (rowid) order;
      an [UPDATE ... WHERE] maps over the rows, an [INSERT] appends a row
      whose AUTOINCREMENT id exceeds every id the table has held;
    - the [REAL] columns and JavaScript numbers are modelled as exact
      integers ([Z]);
    - every [execute] (one SQL write followed by [saveDb]) and every
      [COMMIT] draws an outcome from an oracle list [faults] held in the
      state ([true] = this write fails with a persistence error, an
      exhausted list = no more failures);
    - [saveDb]'s [db.export()] closes and reopens the sql.js database,
      which rolls back and ends a transaction still open and resets
      [PRAGMA foreign_keys] to off; [runTransaction]'s callback runs on a
      connection that tracks the open transaction;
    - the wall clock ([new Date()], [CURRENT_TIMESTAMP]) and the process
      environment ([DEFAULT_DAILY_LIMIT], [PLATFORM_FEE_PERCENT]) are fields
      of the state, so no operation changes the current day;
    - the network collaborator ([hasEnoughUsdc], [transferUsdc]) is an
      input giving the balance answer and the settlement outcome. *)

From Stdlib Require Import ZArith List String Ascii Bool Lia.
From Stdlib Require Import Sorted Permutation.
Import ListNotations.
Open Scope string_scope.
Open Scope Z_scope.

(** ** Thrown values *)

(** What a [catch (error)] receives: an [Error] instance with its message,
    or any other thrown value. *)
Inductive exn : Type :=
| JsError (message : string)
| JsOther.

(** ** Rows of the schema ([db/schema.ts]) *)

Inductive TxType : Type := TxTransfer | TxWithdrawal | TxDeposit | TxFee.
Inductive tx_status : Type := Pending | Confirmed | Failed.
Inductive wr_status : Type := WPending | WProcessing | WCompleted | WFailed.

Definition tx_type_eqb (a b : TxType) : bool :=
  match a, b with
  | TxTransfer, TxTransfer | TxWithdrawal, TxWithdrawal
  | TxDeposit, TxDeposit | TxFee, TxFee => true
  | _, _ => false
  end.

Module Transaction.
Record t : Type := mk {
  id : Z;
  from_wallet_id : Z;
  to_wallet_id : option Z;
  to_external_address : option string;
  amount : Z;
  token : string;
  fee : Z;
  tx_signature : option string;
  tx_type : TxType;
  status : tx_status;
  error_message : option string;
  created_at : string;
  confirmed_at : option string
}.
End Transaction.

Module SpendingLimit.
Record t : Type := mk {
  id : Z;
  wallet_id : Z;
  daily_limit : Z;
  used_today : Z;
  reset_date : string;
  created_at : string;
  updated_at : string
}.
End SpendingLimit.

Module WithdrawalRequest.
Record t : Type := mk {
  id : Z;
  user_id : Z;
  wallet_id : Z;
  amount_usdc : Z;
  amount_fiat : option Z;
  fiat_currency : string;
  stripe_transfer_id : option string;
  status : wr_status;
  error_message : option string;
  created_at : string;
  completed_at : option string
}.
End WithdrawalRequest.

Module Wallet.
Record t : Type := mk {
  id : Z;
  public_key : string
}.
End Wallet.

(** ** The database and the process state *)

Record DB : Type := mkDB {
  transactions : list Transaction.t;
  spending_limits : list SpendingLimit.t;
  withdrawal_requests : list WithdrawalRequest.t;
  (* sqlite_sequence: the largest id each table has ever held *)
  seq_transactions : Z;
  seq_spending_limits : Z;
  seq_withdrawal_requests : Z
}.

(** Clock and environment read by the code. *)
Record Env : Type := mkEnv {
  today : string;                 (* new Date().toISOString().split('T')[0] *)
  now : string;                   (* CURRENT_TIMESTAMP *)
  default_daily_limit : Z;        (* parseFloat(DEFAULT_DAILY_LIMIT || '1000') *)
  platform_fee_percent : Z;       (* parseFloat(PLATFORM_FEE_PERCENT || '1') *)
  solana_network : string         (* SOLANA_NETWORK || 'devnet' *)
}.

Record St : Type := mkSt {
  db : DB;
  env : Env;
  faults : list bool
}.

Definition set_db (s : St) (d : DB) : St := mkSt d (env s) (faults s).

(** ** The store monad: state plus thrown values *)

Inductive result (A : Type) : Type :=
| Ok (a : A)
| Err (e : exn).
Arguments Ok {A} a.
Arguments Err {A} e.

(** A computation over a connection state [S]. *)
Definition MS (S A : Type) : Type := S -> result A * S.

(** Computations on the process state between top-level calls, when no
    transaction is open. *)
Definition M (A : Type) : Type := MS St A.

Definition ret {S A} (a : A) : MS S A := fun s => (Ok a, s).

Definition bind {S A B} (m : MS S A) (k : A -> MS S B) : MS S B := fun s =>
  match m s with
  | (Ok a, s') => k a s'
  | (Err e, s') => (Err e, s')
  end.

Notation "x <- m ;; k" := (bind m (fun x => k))
  (at level 61, m at next level, right associativity).
Notation "m ;;; k" := (bind m (fun _ => k))
  (at level 61, right associativity).

Definition throw {S A} (e : exn) : MS S A := fun s => (Err e, s).

Definition get_st : M St := fun s => (Ok s, s).

(** [try { m } catch (e) { h(e) }] *)
Definition try_catch {A} (m : M A) (h : exn -> M A) : M A := fun s =>
  match m s with
  | (Ok a, s') => (Ok a, s')
  | (Err e, s') => h e s'
  end.

(** The error a failed write or commit raises. *)
Definition io_error : exn := JsError "SQLITE_IOERR".

(** [database.run(sql, params)] then [saveDb()] with no transaction open:
    the write is applied at once (autocommit), unless the oracle makes it
    fail, in which case nothing is written. *)
Definition run_and_save (f : DB -> DB) : M unit := fun s =>
  match faults s with
  | true :: fs => (Err io_error, mkSt (db s) (env s) fs)
  | false :: fs => (Ok tt, mkSt (f (db s)) (env s) fs)
  | [] => (Ok tt, mkSt (f (db s)) (env s) [])
  end.

(** ** The sql.js connection *)

(** [saveDb] calls [db.export()], which closes the sql.js database and
    opens it again; closing it rolls back a transaction that is still
    open. What a write does therefore depends on the connection it runs
    on: the statements of [db/queries.ts] read and write through this
    interface. *)
Class Connection (S : Type) : Type := {
  conn_db : S -> DB;
  conn_env : S -> Env;
  conn_execute : (DB -> DB) -> MS S unit
}.

#[global] Instance Connection_St : Connection St := {
  conn_db := db;
  conn_env := env;
  conn_execute := run_and_save
}.

(** The connection while [runTransaction]'s callback runs: the process
    state, and the database as it was at [BEGIN TRANSACTION] as long as
    that transaction is open ([None] once it has ended). *)
Record TxSt : Type := mkTxSt {
  tx_st : St;
  tx_begin : option DB
}.

(** A write inside the callback: [database.run] applies it inside the
    open transaction, then [saveDb]'s [db.export()] closes the database,
    which rolls the transaction back to its BEGIN state and ends it. Once
    it has ended, writes autocommit. *)
Definition execute_in_tx (f : DB -> DB) : MS TxSt unit := fun c =>
  match run_and_save f (tx_st c), tx_begin c with
  | (Ok u, s1), Some d0 => (Ok u, mkTxSt (set_db s1 d0) None)
  | (r, s1), b => (r, mkTxSt s1 b)
  end.

#[global] Instance Connection_TxSt : Connection TxSt := {
  conn_db c := db (tx_st c);
  conn_env c := env (tx_st c);
  conn_execute := execute_in_tx
}.

(** [query]/[queryOne]: a read of the current database. *)
Definition query {S} `{Connection S} {A} (f : DB -> A) : MS S A := fun s =>
  (Ok (f (conn_db s)), s).

(** [execute(sql, params)]: [database.run(sql, params)]; [saveDb()]. *)
Definition execute {S} `{Connection S} (f : DB -> DB) : MS S unit := conn_execute f.

Definition get_env {S} `{Connection S} : MS S Env := fun s => (Ok (conn_env s), s).

(** The errors SQLite raises for a [COMMIT] or a [ROLLBACK] when no
    transaction is open. *)
Definition cannot_commit : exn := JsError "cannot commit - no transaction is active".
Definition cannot_rollback : exn := JsError "cannot rollback - no transaction is active".

(** [database.run('COMMIT')]: it draws the next outcome of the oracle,
    like every write; with no open transaction it throws whatever the
    outcome; otherwise it fails on a [true] outcome and else ends the
    transaction, keeping what was written. *)
Definition commit (c : TxSt) : result unit * TxSt :=
  let s := tx_st c in
  let drawn := match faults s with
               | b :: fs => (b, mkSt (db s) (env s) fs)
               | [] => (false, s)
               end in
  match tx_begin c with
  | None => (Err cannot_commit, mkTxSt (snd drawn) None)
  | Some d0 =>
      if fst drawn then (Err io_error, mkTxSt (snd drawn) (Some d0))
      else (Ok tt, mkTxSt (snd drawn) None)
  end.

(** [database.run('ROLLBACK'); throw error] in the catch block: back to
    the BEGIN state while the transaction is open; once it has ended the
    ROLLBACK itself throws, and its error replaces [error]. *)
Definition rollback {A} (e : exn) (c : TxSt) : result A * St :=
  match tx_begin c with
  | Some d0 => (Err e, set_db (tx_st c) d0)
  | None => (Err cannot_rollback, tx_st c)
  end.

(** [runTransaction(fn)] (lines 141-154): BEGIN TRANSACTION; [fn()];
    COMMIT; [saveDb()]; on a throw of [fn] or of the COMMIT, the catch
    block's ROLLBACK. *)
Definition runTransaction {A} (fn : MS TxSt A) : M A := fun s =>
  match fn (mkTxSt s (Some (db s))) with
  | (Ok a, c1) =>
      match commit c1 with
      | (Ok _, c2) => (Ok a, tx_st c2)
      | (Err e, c2) => rollback e c2
      end
  | (Err e, c1) => rollback e c1
  end.

(** [x!] on an [undefined] result: the next field access throws. *)
Definition type_error : exn := JsError "TypeError: Cannot read properties of undefined".

(** [queryOne(...)!]. The [!] checks nothing: the model throws at once,
    where the code would go on with [undefined] until a field of it is
    read. *)
Definition deref {S A} (o : option A) : MS S A :=
  match o with
  | Some a => ret a
  | None => throw type_error
  end.

(** JavaScript's [x || null] and [x || 0]. *)
Definition z_or_null (o : option Z) : option Z :=
  match o with
  | Some 0 => None
  | o => o
  end.

Definition str_or_null (o : option string) : option string :=
  match o with
  | Some "" => None
  | o => o
  end.

Definition z_or_zero (o : option Z) : Z :=
  match o with
  | Some z => z
  | None => 0
  end.

(** [ORDER BY id DESC LIMIT 1]: the row with the largest id. *)
Fixpoint max_by_id {R} (id : R -> Z) (rs : list R) : option R :=
  match rs with
  | [] => None
  | r :: rs' =>
      match max_by_id id rs' with
      | Some r' => if id r' <? id r then Some r else Some r'
      | None => Some r
      end
  end.

(** The largest id a list of rows holds (0 for none). *)
Definition max_id {R} (id : R -> Z) (rs : list R) : Z :=
  fold_right (fun r m => Z.max (id r) m) 0 rs.

(** AUTOINCREMENT: one more than any id the table has ever held. *)
Definition next_id {R} (id : R -> Z) (seq : Z) (rs : list R) : Z :=
  Z.max seq (max_id id rs) + 1.

(** ** Spending-limit queries ([db/queries.ts], lines 165-245) *)

(** [SELECT * FROM spending_limits WHERE wallet_id = ?] *)
Definition find_limit (walletId : Z) (d : DB) : option SpendingLimit.t :=
  find (fun r => SpendingLimit.wallet_id r =? walletId) (spending_limits d).

Definition update_limits (walletId : Z) (f : SpendingLimit.t -> SpendingLimit.t)
    (d : DB) : DB :=
  mkDB (transactions d)
       (map (fun r => if SpendingLimit.wallet_id r =? walletId then f r else r)
            (spending_limits d))
       (withdrawal_requests d) (seq_transactions d) (seq_spending_limits d)
       (seq_withdrawal_requests d).

(** [UPDATE spending_limits SET used_today = 0, reset_date = ?,
    updated_at = CURRENT_TIMESTAMP WHERE wallet_id = ?] *)
Definition reset_limit (walletId : Z) (today now : string) : DB -> DB :=
  update_limits walletId (fun r =>
    SpendingLimit.mk (SpendingLimit.id r) (SpendingLimit.wallet_id r)
      (SpendingLimit.daily_limit r) 0 today (SpendingLimit.created_at r) now).

(** [INSERT INTO spending_limits (wallet_id, daily_limit, reset_date)
    VALUES (?, ?, ?)]; [used_today] takes its default 0. *)
Definition insert_limit (walletId dailyLimit : Z) (today now : string) (d : DB) : DB :=
  let i := next_id SpendingLimit.id (seq_spending_limits d) (spending_limits d) in
  mkDB (transactions d)
       (spending_limits d ++ [SpendingLimit.mk i walletId dailyLimit 0 today now now])
       (withdrawal_requests d) (seq_transactions d) i (seq_withdrawal_requests d).

(** [UPDATE spending_limits SET used_today = used_today + ?,
    updated_at = CURRENT_TIMESTAMP WHERE wallet_id = ?] *)
Definition add_used (walletId amount : Z) (now : string) : DB -> DB :=
  update_limits walletId (fun r =>
    SpendingLimit.mk (SpendingLimit.id r) (SpendingLimit.wallet_id r)
      (SpendingLimit.daily_limit r) (SpendingLimit.used_today r + amount)
      (SpendingLimit.reset_date r) (SpendingLimit.created_at r) now).

Definition getOrCreateSpendingLimit {S} `{Connection S} (walletId : Z)
    : MS S SpendingLimit.t :=
  existing <- query (find_limit walletId) ;;
  e <- get_env ;;
  match existing with
  | Some ex =>
      if negb (String.eqb (SpendingLimit.reset_date ex) (today e)) then
        execute (reset_limit walletId (today e) (now e)) ;;;
        r <- query (find_limit walletId) ;;
        deref r
      else ret ex
  | None =>
      execute (insert_limit walletId (default_daily_limit e) (today e) (now e)) ;;;
      r <- query (find_limit walletId) ;;
      deref r
  end.

Definition recordSpending {S} `{Connection S} (walletId amount : Z)
    : MS S SpendingLimit.t :=
  getOrCreateSpendingLimit walletId ;;;
  e <- get_env ;;
  execute (add_used walletId amount (now e)) ;;;
  r <- query (find_limit walletId) ;;
  deref r.

Record CheckResult : Type := mkCheck {
  allowed : bool;
  remaining : Z
}.

Definition checkSpendingAllowed (walletId amount : Z) : M CheckResult :=
  limit <- getOrCreateSpendingLimit walletId ;;
  let remaining := SpendingLimit.daily_limit limit - SpendingLimit.used_today limit in
  ret (mkCheck (amount <=? remaining) remaining).

(** ** Transaction queries ([db/queries.ts], lines 90-153) *)

Record CreateOptions : Type := mkCreateOptions {
  toWalletId : option Z;
  toExternalAddress : option string;
  fee_opt : option Z;
  txSignature : option string
}.

Record StatusOptions : Type := mkStatusOptions {
  st_txSignature : option string;
  errorMessage : option string
}.

Definition insert_tx (fromWalletId amount : Z) (txType : TxType)
    (o : CreateOptions) (now : string) (d : DB) : DB :=
  let i := next_id Transaction.id (seq_transactions d) (transactions d) in
  mkDB (transactions d ++
          [Transaction.mk i fromWalletId (z_or_null (toWalletId o))
             (str_or_null (toExternalAddress o)) amount "USDC"
             (z_or_zero (fee_opt o)) (str_or_null (txSignature o)) txType
             Pending None now None])
       (spending_limits d) (withdrawal_requests d) i (seq_spending_limits d)
       (seq_withdrawal_requests d).

(** [SELECT * FROM transactions WHERE from_wallet_id = ? AND amount = ?
    AND tx_type = ? ORDER BY id DESC LIMIT 1] *)
Definition latest_tx (fromWalletId amount : Z) (txType : TxType) (d : DB)
    : option Transaction.t :=
  max_by_id Transaction.id
    (filter (fun r => (Transaction.from_wallet_id r =? fromWalletId)
                      && (Transaction.amount r =? amount)
                      && tx_type_eqb (Transaction.tx_type r) txType)
            (transactions d)).

(** [SELECT * FROM transactions WHERE id = ?] *)
Definition find_tx (id : Z) (d : DB) : option Transaction.t :=
  find (fun r => Transaction.id r =? id) (transactions d).

Definition createTransaction {S} `{Connection S} (fromWalletId amount : Z)
    (txType : TxType) (o : CreateOptions) : MS S Transaction.t :=
  e <- get_env ;;
  execute (insert_tx fromWalletId amount txType o (now e)) ;;;
  tx <- query (latest_tx fromWalletId amount txType) ;;
  deref tx.

(** SQL [COALESCE(a, b)] *)
Definition coalesce {A} (a b : option A) : option A :=
  match a with
  | Some _ => a
  | None => b
  end.

Definition update_txs (id : Z) (f : Transaction.t -> Transaction.t) (d : DB) : DB :=
  mkDB (map (fun r => if Transaction.id r =? id then f r else r) (transactions d))
       (spending_limits d) (withdrawal_requests d) (seq_transactions d)
       (seq_spending_limits d) (seq_withdrawal_requests d).

(** [SET status = ?, tx_signature = COALESCE(?, tx_signature),
    error_message = ?] and, for [confirmed], [confirmed_at = CURRENT_TIMESTAMP]. *)
Definition set_status (status : tx_status) (sig err : option string)
    (confirmedAt : option string) (r : Transaction.t) : Transaction.t :=
  Transaction.mk (Transaction.id r) (Transaction.from_wallet_id r)
    (Transaction.to_wallet_id r) (Transaction.to_external_address r)
    (Transaction.amount r) (Transaction.token r) (Transaction.fee r)
    (coalesce sig (Transaction.tx_signature r)) (Transaction.tx_type r) status err
    (Transaction.created_at r)
    (match confirmedAt with Some t => Some t | None => Transaction.confirmed_at r end).

Definition updateTransactionStatus {S} `{Connection S} (id : Z) (status : tx_status)
    (o : StatusOptions) : MS S Transaction.t :=
  e <- get_env ;;
  let sig := str_or_null (st_txSignature o) in
  let err := str_or_null (errorMessage o) in
  match status with
  | Confirmed => execute (update_txs id (set_status status sig err (Some (now e))))
  | _ => execute (update_txs id (set_status status sig err None))
  end ;;;
  r <- query (find_tx id) ;;
  deref r.

(** [executeTransfer] (lines 249-270) *)
Definition executeTransfer (fromWalletId toWalletId amount : Z) (sig : string)
    (fee : Z) : M Transaction.t :=
  runTransaction (
    recordSpending fromWalletId (amount + fee) ;;;
    tx <- createTransaction fromWalletId amount TxTransfer
            (mkCreateOptions (Some toWalletId) None (Some fee) (Some sig)) ;;
    updateTransactionStatus (Transaction.id tx) Confirmed
      (mkStatusOptions (Some sig) None)).

(** The database [recordSpending] leaves when it runs first inside
    [runTransaction], for the wallet's row [r]: unchanged when [r] was
    reset today; otherwise the spend added to the stale row. *)
Definition spent_in_tx (e : Env) (w x : Z) (r : SpendingLimit.t) (d : DB) : DB :=
  if String.eqb (SpendingLimit.reset_date r) (today e) then d
  else add_used w x (now e) d.

(** ** Transfer orchestration ([services/transaction.ts]) *)

Record TransferResult : Type := mkTransferResult {
  success : bool;
  transaction : option Transaction.t;
  signature : option string;
  explorerUrl : option string;
  error : option string
}.

(** The network collaborator as seen by one call: the answer of
    [hasEnoughUsdc], whether [new PublicKey(toAddress)] accepts the
    address, and the outcome of [getWalletKeypair] followed by
    [transferUsdc] for a recipient and an amount. *)
Record Net : Type := mkNet {
  has_enough_usdc : bool;
  valid_address : string -> bool;
  transfer_usdc : string -> Z -> result string
}.

Definition lift_result {A} (r : result A) : M A := fun s => (r, s).

(** Decimal digits of a natural number. *)
Fixpoint digits (fuel : nat) (n : Z) (acc : string) : string :=
  match fuel with
  | O => acc
  | S f =>
      let acc' := String (ascii_of_nat (48 + Z.to_nat (n mod 10))) acc in
      if n <? 10 then acc' else digits f (n / 10) acc'
  end.

(** [n.toFixed(2)] for an integral [n]. *)
Definition toFixed2 (n : Z) : string :=
  (if n <? 0 then "-" else "") ++
  digits (S (Z.to_nat (Z.log2 (Z.abs n)))) (Z.abs n) "" ++ ".00".

Definition limit_exceeded_message (remaining : Z) : string :=
  "Daily spending limit exceeded. Remaining: $" ++ toFixed2 remaining.

Definition getExplorerUrl (sig network : string) : string :=
  "https://explorer.solana.com/tx/" ++ sig ++ "?cluster=" ++ network.

(** [error instanceof Error ? error.message : 'Unknown error'] *)
Definition message_of (e : exn) : string :=
  match e with
  | JsError m => m
  | JsOther => "Unknown error"
  end.

Definition declined (msg : string) : TransferResult :=
  mkTransferResult false None None None (Some msg).

Definition transfer (fromWallet toWallet : Wallet.t) (amount : Z) (net : Net)
    : M TransferResult :=
  chk <- checkSpendingAllowed (Wallet.id fromWallet) amount ;;
  if negb (allowed chk) then ret (declined (limit_exceeded_message (remaining chk)))
  else if negb (has_enough_usdc net) then ret (declined "Insufficient USDC balance")
  else
  e <- get_env ;;
  (* [(amount * PLATFORM_FEE_PERCENT) / 100] in floating point; the integer
     division agrees with it when [amount * PLATFORM_FEE_PERCENT] is a
     multiple of 100 *)
  let fee := amount * platform_fee_percent e / 100 in
  let netAmount := amount - fee in
  pendingTx <- createTransaction (Wallet.id fromWallet) amount TxTransfer
                 (mkCreateOptions (Some (Wallet.id toWallet)) None (Some fee) None) ;;
  try_catch
    (signature <- lift_result (transfer_usdc net (Wallet.public_key toWallet) netAmount) ;;
     confirmedTx <- executeTransfer (Wallet.id fromWallet) (Wallet.id toWallet)
                      amount signature fee ;;
     ret (mkTransferResult true (Some confirmedTx) (Some signature)
            (Some (getExplorerUrl signature (solana_network e))) None))
    (fun err =>
       let msg := message_of err in
       updateTransactionStatus (Transaction.id pendingTx) Failed
         (mkStatusOptions None (Some msg)) ;;;
       ret (declined msg)).

Definition transferExternal (fromWallet : Wallet.t) (toAddress : string) (amount : Z)
    (net : Net) : M TransferResult :=
  if negb (valid_address net toAddress) then ret (declined "Invalid Solana address")
  else
  chk <- checkSpendingAllowed (Wallet.id fromWallet) amount ;;
  if negb (allowed chk) then ret (declined (limit_exceeded_message (remaining chk)))
  else if negb (has_enough_usdc net) then ret (declined "Insufficient USDC balance")
  else
  e <- get_env ;;
  pendingTx <- createTransaction (Wallet.id fromWallet) amount TxTransfer
                 (mkCreateOptions None (Some toAddress) None None) ;;
  try_catch
    (signature <- lift_result (transfer_usdc net toAddress amount) ;;
     recordSpending (Wallet.id fromWallet) amount ;;;
     confirmedTx <- updateTransactionStatus (Transaction.id pendingTx) Confirmed
                      (mkStatusOptions (Some signature) None) ;;
     ret (mkTransferResult true (Some confirmedTx) (Some signature)
            (Some (getExplorerUrl signature (solana_network e))) None))
    (fun err =>
       let msg := message_of err in
       updateTransactionStatus (Transaction.id pendingTx) Failed
         (mkStatusOptions None (Some msg)) ;;;
       ret (declined msg)).

(** ** Withdrawal completion ([services/fiat.ts], lines 148-163) *)

(** [SELECT * FROM withdrawal_requests WHERE id = ?] *)
Definition find_withdrawal (id : Z) (d : DB) : option WithdrawalRequest.t :=
  find (fun r => WithdrawalRequest.id r =? id) (withdrawal_requests d).

(** [UPDATE withdrawal_requests SET status = 'completed',
    completed_at = CURRENT_TIMESTAMP WHERE id = ?] *)
Definition complete_rows (id : Z) (now : string) (d : DB) : DB :=
  mkDB (transactions d) (spending_limits d)
       (map (fun r =>
               if WithdrawalRequest.id r =? id then
                 WithdrawalRequest.mk (WithdrawalRequest.id r) (WithdrawalRequest.user_id r)
                   (WithdrawalRequest.wallet_id r) (WithdrawalRequest.amount_usdc r)
                   (WithdrawalRequest.amount_fiat r) (WithdrawalRequest.fiat_currency r)
                   (WithdrawalRequest.stripe_transfer_id r) WCompleted
                   (WithdrawalRequest.error_message r) (WithdrawalRequest.created_at r)
                   (Some now)
               else r) (withdrawal_requests d))
       (seq_transactions d) (seq_spending_limits d) (seq_withdrawal_requests d).

Definition completeWithdrawal (requestId : Z) : M (option WithdrawalRequest.t) :=
  e <- get_env ;;
  execute (complete_rows requestId (now e)) ;;;
  query (find_withdrawal requestId).

(** ** Derived notions used in the statements *)

(** The database after [getOrCreateSpendingLimit] when no write fails. *)
Definition rolled (e : Env) (walletId : Z) (d : DB) : DB :=
  match find_limit walletId d with
  | Some ex =>
      if String.eqb (SpendingLimit.reset_date ex) (today e) then d
      else reset_limit walletId (today e) (now e) d
  | None => insert_limit walletId (default_daily_limit e) (today e) (now e) d
  end.

(** The counter as the data model reads it: a stale or missing row
    counts as zero spent today. *)
Definition effective_used (e : Env) (walletId : Z) (d : DB) : Z :=
  match find_limit walletId d with
  | Some r =>
      if String.eqb (SpendingLimit.reset_date r) (today e)
      then SpendingLimit.used_today r else 0
  | None => 0
  end.

(** The cap in force: the row's, or the configured default for a missing row. *)
Definition effective_limit (e : Env) (walletId : Z) (d : DB) : Z :=
  match find_limit walletId d with
  | Some r => SpendingLimit.daily_limit r
  | None => default_daily_limit e
  end.

(** A caller issuing [recordSpending(walletId, a)] for each [a] in turn. *)
Fixpoint record_all (walletId : Z) (amounts : list Z) : M unit :=
  match amounts with
  | [] => ret tt
  | a :: rest => recordSpending walletId a ;;; record_all walletId rest
  end.

Definition sum (l : list Z) : Z := fold_right Z.add 0 l.

(** The row a transition writes: the SET clauses of the UPDATE. *)
Definition transitioned (e : Env) (status : tx_status) (o : StatusOptions)
    (r : Transaction.t) : Transaction.t :=
  set_status status (str_or_null (st_txSignature o)) (str_or_null (errorMessage o))
    (match status with Confirmed => Some (now e) | _ => None end) r.


(** ** Spending-limit administration ([db/queries.ts] lines 202-221,
    [services/limits.ts]) *)

(** [UPDATE spending_limits SET daily_limit = ?, updated_at = CURRENT_TIMESTAMP
    WHERE wallet_id = ?] *)
Definition set_daily_limit (walletId newLimit : Z) (now : string) : DB -> DB :=
  update_limits walletId (fun r =>
    SpendingLimit.mk (SpendingLimit.id r) (SpendingLimit.wallet_id r) newLimit
      (SpendingLimit.used_today r) (SpendingLimit.reset_date r)
      (SpendingLimit.created_at r) now).

(** The function ends in [return queryOne(...)!]: the [!] is a type-level
    assertion, so a missing row comes back as [undefined] ([None]). *)
Definition updateSpendingLimit (walletId newLimit : Z) : M (option SpendingLimit.t) :=
  existing <- query (find_limit walletId) ;;
  match existing with
  | None => getOrCreateSpendingLimit walletId ;;; ret tt
  | Some _ => ret tt
  end ;;;
  e <- get_env ;;
  execute (set_daily_limit walletId newLimit (now e)) ;;;
  query (find_limit walletId).

Record LimitStatus : Type := mkLimitStatus {
  dailyLimit : Z;
  usedToday : Z;
  ls_remaining : Z;
  resetDate : string
}.

Definition limit_status_of (limit : SpendingLimit.t) : LimitStatus :=
  mkLimitStatus (SpendingLimit.daily_limit limit) (SpendingLimit.used_today limit)
    (SpendingLimit.daily_limit limit - SpendingLimit.used_today limit)
    (SpendingLimit.reset_date limit).

Definition getLimitStatus (walletId : Z) : M LimitStatus :=
  limit <- getOrCreateSpendingLimit walletId ;;
  ret (limit_status_of limit).

Definition setLimit (walletId newLimit : Z) : M LimitStatus :=
  if newLimit <? 0 then throw (JsError "Spending limit cannot be negative")
  else
    limit <- updateSpendingLimit walletId newLimit ;;
    (* [limit.daily_limit] on [undefined] throws *)
    l <- deref limit ;;
    ret (limit_status_of l).

Definition canSpend (walletId amount : Z) : M CheckResult :=
  checkSpendingAllowed walletId amount.

(** ** History queries ([db/queries.ts] lines 155-163, [services/fiat.ts]
    lines 125-146, [services/transaction.ts] lines 194-199) *)

(** [ORDER BY created_at DESC]: an insertion sort on the TEXT timestamps
    (SQLite compares them bytewise, as [String.compare] does); rows with
    equal timestamps keep their rowid order. *)
Fixpoint insert_desc {R} (key : R -> string) (x : R) (l : list R) : list R :=
  match l with
  | [] => [x]
  | y :: l' =>
      if String.leb (key y) (key x) then x :: l else y :: insert_desc key x l'
  end.

Definition sort_desc {R} (key : R -> string) (l : list R) : list R :=
  fold_right (insert_desc key) [] l.

(** [LIMIT n]: SQLite reads a negative limit as no limit. *)
Definition sql_limit {R} (n : Z) (l : list R) : list R :=
  if n <? 0 then l else firstn (Z.to_nat n) l.

(** [WHERE from_wallet_id = ? OR to_wallet_id = ?] ([NULL = x] is not true) *)
Definition involves (walletId : Z) (r : Transaction.t) : bool :=
  (Transaction.from_wallet_id r =? walletId) ||
  match Transaction.to_wallet_id r with
  | Some w => w =? walletId
  | None => false
  end.

Definition getTransactionsByWallet (walletId limit : Z) : M (list Transaction.t) :=
  query (fun d => sql_limit limit
                    (sort_desc Transaction.created_at
                       (filter (involves walletId) (transactions d)))).

Definition getHistory (walletId limit : Z) : M (list Transaction.t) :=
  getTransactionsByWallet walletId limit.

Definition getWithdrawalHistory (userId limit : Z) : M (list WithdrawalRequest.t) :=
  query (fun d => sql_limit limit
                    (sort_desc WithdrawalRequest.created_at
                       (filter (fun r => WithdrawalRequest.user_id r =? userId)
                          (withdrawal_requests d)))).

(** [a] may precede [b] in an [ORDER BY key DESC] result. *)
Definition newer_first {R} (key : R -> string) (a b : R) : Prop :=
  String.leb (key b) (key a) = true.

Definition getWithdrawalStatus (requestId : Z) : M (option WithdrawalRequest.t) :=
  query (find_withdrawal requestId).

(** ** Withdrawal initiation ([services/fiat.ts] lines 17-123) *)

Record WithdrawalResult : Type := mkWithdrawalResult {
  w_success : bool;
  w_request : option WithdrawalRequest.t;
  w_message : string;
  estimatedArrival : option string
}.

(** [WITHDRAWAL_FEE_PERCENT = 1.5]: [amountUsdc * (1.5 / 100)]. The source
    computes it in floating point; this integer division agrees with it
    only when [amountUsdc * 15] is a multiple of 1000, and theorems about
    the fee assume that. *)
Definition withdrawal_fee (amountUsdc : Z) : Z := amountUsdc * 15 / 1000.

(** [USDC_TO_USD_RATE = 1.0] *)
Definition usdc_to_usd_rate : Z := 1.

(** [INSERT INTO withdrawal_requests (user_id, wallet_id, amount_usdc,
    amount_fiat, status) VALUES (?, ?, ?, ?, 'pending')] *)
Definition insert_withdrawal (userId walletId amountUsdc amountFiat : Z) (now : string)
    (d : DB) : DB :=
  let i := next_id WithdrawalRequest.id (seq_withdrawal_requests d)
             (withdrawal_requests d) in
  mkDB (transactions d) (spending_limits d)
       (withdrawal_requests d ++
          [WithdrawalRequest.mk i userId walletId amountUsdc (Some amountFiat) "USD"
             None WPending None now None])
       (seq_transactions d) (seq_spending_limits d) i.

(** [SELECT * FROM withdrawal_requests WHERE user_id = ? AND wallet_id = ?
    AND amount_usdc = ? AND status = 'pending' ORDER BY id DESC LIMIT 1] *)
Definition latest_pending_withdrawal (userId walletId amountUsdc : Z) (d : DB)
    : option WithdrawalRequest.t :=
  max_by_id WithdrawalRequest.id
    (filter (fun r => (WithdrawalRequest.user_id r =? userId)
                      && (WithdrawalRequest.wallet_id r =? walletId)
                      && (WithdrawalRequest.amount_usdc r =? amountUsdc)
                      && match WithdrawalRequest.status r with
                         | WPending => true
                         | _ => false
                         end)
            (withdrawal_requests d)).

(** [UPDATE withdrawal_requests SET status = 'processing',
    stripe_transfer_id = ? WHERE id = ?] *)
Definition set_processing (requestId : Z) (stripeId : string) (d : DB) : DB :=
  mkDB (transactions d) (spending_limits d)
       (map (fun r =>
               if WithdrawalRequest.id r =? requestId then
                 WithdrawalRequest.mk (WithdrawalRequest.id r) (WithdrawalRequest.user_id r)
                   (WithdrawalRequest.wallet_id r) (WithdrawalRequest.amount_usdc r)
                   (WithdrawalRequest.amount_fiat r) (WithdrawalRequest.fiat_currency r)
                   (Some stripeId) WProcessing
                   (WithdrawalRequest.error_message r) (WithdrawalRequest.created_at r)
                   (WithdrawalRequest.completed_at r)
               else r) (withdrawal_requests d))
       (seq_transactions d) (seq_spending_limits d) (seq_withdrawal_requests d).

(** [UPDATE ... SET status = 'processing', stripe_transfer_id = ?] on one row *)
Definition processing_row (sid : string) (r : WithdrawalRequest.t) : WithdrawalRequest.t :=
  WithdrawalRequest.mk (WithdrawalRequest.id r) (WithdrawalRequest.user_id r)
    (WithdrawalRequest.wallet_id r) (WithdrawalRequest.amount_usdc r)
    (WithdrawalRequest.amount_fiat r) (WithdrawalRequest.fiat_currency r)
    (Some sid) WProcessing
    (WithdrawalRequest.error_message r) (WithdrawalRequest.created_at r)
    (WithdrawalRequest.completed_at r).

(** Decimal text of a non-negative integer ([`${n}`]). *)
Definition z_to_string (n : Z) : string :=
  digits (S (Z.to_nat (Z.log2 (Z.abs n)))) (Z.abs n) "".

Definition newline : string := String (ascii_of_nat 10) "".

Fixpoint join_lines (ls : list string) : string :=
  match ls with
  | [] => ""
  | [l] => l
  | l :: rest => l ++ newline ++ join_lines rest
  end.

Definition withdrawal_message (amountUsdc fee amountFiat : Z) : string :=
  join_lines [
    "✅ Withdrawal initiated!";
    "";
    "💵 Amount: $" ++ toFixed2 amountUsdc ++ " USDC";
    "📉 Fee (1.5%): $" ++ toFixed2 fee;
    "💰 You'll receive: $" ++ toFixed2 amountFiat ++ " USD";
    "";
    "⚠️ DEVNET MODE: No real money will be transferred.";
    "In production, funds would arrive via ACH."].

(** [Date.now()] ([nowMs]) and the formatted arrival date three days on
    ([arrival]) are read from the clock, so they are inputs here. *)
Definition initiateWithdrawal (userId walletId amountUsdc nowMs : Z) (arrival : string)
    : M WithdrawalResult :=
  if amountUsdc <? 10 then
    ret (mkWithdrawalResult false None "Minimum withdrawal is $10 USDC" None)
  else
  let fee := withdrawal_fee amountUsdc in
  let amountFiat := (amountUsdc - fee) * usdc_to_usd_rate in
  e <- get_env ;;
  execute (insert_withdrawal userId walletId amountUsdc amountFiat (now e)) ;;;
  pendingRequest <- query (latest_pending_withdrawal userId walletId amountUsdc) ;;
  match pendingRequest with
  | None => ret (mkWithdrawalResult false None "Failed to create withdrawal request" None)
  | Some p =>
      let requestId := WithdrawalRequest.id p in
      let mockStripeId := "tr_mock_" ++ z_to_string nowMs in
      execute (set_processing requestId mockStripeId) ;;;
      request <- query (find_withdrawal requestId) ;;
      ret (mkWithdrawalResult true request
             (withdrawal_message amountUsdc fee amountFiat) (Some arrival))
  end.

(** ** Users and wallets ([db/queries.ts] lines 11-81)

    The [users] and [wallets] tables, with the constraints the schema
    declares on them ([telegram_id] and [public_key] UNIQUE, and, with
    [PRAGMA foreign_keys = ON], [wallets.user_id] referencing [users.id]).
    [initDb] turns that pragma on and then calls [saveDb], whose
    [db.export()] leaves the connection with [foreign_keys] off again, so
    no later statement checks the foreign key.
    These functions take CURRENT_TIMESTAMP as [now] and do not fail on
    writes otherwise. *)

Module User.
Record t : Type := mk {
  id : Z;
  telegram_id : string;
  telegram_username : option string;
  created_at : string;
  updated_at : string
}.
End User.

Inductive WalletType := Human | Agent.

(** A full row of [wallets]. *)
Module WalletRow.
Record t : Type := mk {
  id : Z;
  user_id : Z;
  public_key : string;
  encrypted_secret_key : string;
  wallet_type : WalletType;
  label : option string;
  is_active : Z;
  created_at : string
}.
End WalletRow.

Record Accounts : Type := mkAccounts {
  users : list User.t;
  wallets : list WalletRow.t;
  seq_users : Z;
  seq_wallets : Z
}.

Definition unique_violation (column : string) : exn :=
  JsError ("UNIQUE constraint failed: " ++ column).

(** [SELECT * FROM users WHERE telegram_id = ?] *)
Definition find_user (telegramId : string) (a : Accounts) : option User.t :=
  find (fun u => String.eqb (User.telegram_id u) telegramId) (users a).

(** [UPDATE users SET telegram_username = ?, updated_at = CURRENT_TIMESTAMP
    WHERE telegram_id = ?] *)
Definition set_username (telegramId : string) (username : option string) (now : string)
    (a : Accounts) : Accounts :=
  mkAccounts
    (map (fun u => if String.eqb (User.telegram_id u) telegramId
                   then User.mk (User.id u) (User.telegram_id u) username
                          (User.created_at u) now
                   else u) (users a))
    (wallets a) (seq_users a) (seq_wallets a).

(** [INSERT INTO users (telegram_id, telegram_username) VALUES (?, ?)] *)
Definition insert_user (telegramId : string) (username : option string) (now : string)
    (a : Accounts) : result unit * Accounts :=
  if existsb (fun u => String.eqb (User.telegram_id u) telegramId) (users a)
  then (Err (unique_violation "users.telegram_id"), a)
  else
    let i := next_id User.id (seq_users a) (users a) in
    (Ok tt, mkAccounts (users a ++ [User.mk i telegramId username now now])
                       (wallets a) i (seq_wallets a)).

(** Both branches end in [queryOne(...)!], which hands back [undefined]
    ([None]) should the row be missing. *)
Definition createUser (telegramId : string) (username : option string) (now : string)
    (a : Accounts) : result (option User.t) * Accounts :=
  match find_user telegramId a with
  | Some _ =>
      let a' := set_username telegramId (str_or_null username) now a in
      (Ok (find_user telegramId a'), a')
  | None =>
      match insert_user telegramId (str_or_null username) now a with
      | (Ok _, a') => (Ok (find_user telegramId a'), a')
      | (Err e, a') => (Err e, a')
      end
  end.

Definition getUserByTelegramId (telegramId : string) (a : Accounts) : option User.t :=
  find_user telegramId a.

(** [SELECT * FROM wallets WHERE public_key = ?] *)
Definition find_wallet_by_key (publicKey : string) (a : Accounts) : option WalletRow.t :=
  find (fun x => String.eqb (WalletRow.public_key x) publicKey) (wallets a).

(** [INSERT INTO wallets (user_id, public_key, encrypted_secret_key,
    wallet_type, label) VALUES (?, ?, ?, ?, ?)]: the UNIQUE index is checked
    as the row goes in; the foreign key is not enforced (see above). *)
Definition insert_wallet (userId : Z) (publicKey encryptedSecretKey : string)
    (walletType : WalletType) (label : option string) (now : string) (a : Accounts)
    : result unit * Accounts :=
  if existsb (fun x => String.eqb (WalletRow.public_key x) publicKey) (wallets a)
  then (Err (unique_violation "wallets.public_key"), a)
  else
    let i := next_id WalletRow.id (seq_wallets a) (wallets a) in
    (Ok tt, mkAccounts (users a)
              (wallets a ++ [WalletRow.mk i userId publicKey encryptedSecretKey
                                walletType label 1 now])
              (seq_users a) i).

Definition createWallet (userId : Z) (publicKey encryptedSecretKey : string)
    (walletType : WalletType) (label : option string) (now : string) (a : Accounts)
    : result (option WalletRow.t) * Accounts :=
  match insert_wallet userId publicKey encryptedSecretKey walletType
          (str_or_null label) now a with
  | (Ok _, a') => (Ok (find_wallet_by_key publicKey a'), a')
  | (Err e, a') => (Err e, a')
  end.

Definition getWalletByPublicKey (publicKey : string) (a : Accounts) : option WalletRow.t :=
  find_wallet_by_key publicKey a.

(** [SELECT * FROM wallets WHERE user_id = ? AND is_active = 1] *)
Definition getWalletsByUserId (userId : Z) (a : Accounts) : list WalletRow.t :=
  filter (fun x => (WalletRow.user_id x =? userId) && (WalletRow.is_active x =? 1))
    (wallets a).

(** ** Concrete stores used by the scenarios and counterexamples *)

Module Scenario.
Definition env0 : Env :=
  mkEnv "2026-10-19" "2026-10-19 10:00:00" 1000 1 "devnet".

Definition limit_row (walletId dailyLimit used : Z) (resetDate : string)
    : SpendingLimit.t :=
  SpendingLimit.mk 1 walletId dailyLimit used resetDate
    "2026-10-18 09:00:00" "2026-10-18 09:00:00".

Definition with_limit (r : SpendingLimit.t) (fs : list bool) : St :=
  mkSt (mkDB [] [r] [] 0 1 0) env0 fs.

(** daily_limit = 100, used_today = 80, reset today *)
Definition s_80_of_100 : St := with_limit (limit_row 1 100 80 "2026-10-19") [].

(** a row last reset yesterday, with 50 spent then *)
Definition s_stale : St := with_limit (limit_row 1 100 50 "2026-10-18") [].

Definition alice : Wallet.t := Wallet.mk 1 "AliceWa11et1111111111111111111111111111111".
Definition bob : Wallet.t := Wallet.mk 2 "BobWa11et11111111111111111111111111111111".
Definition outside : string := "Externa1Address111111111111111111111111111".

Definition net_ok : Net := mkNet true (fun _ => true) (fun _ _ => Ok "sig123").
Definition net_down : Net :=
  mkNet true (fun _ => true) (fun _ _ => Err (JsError "Transaction simulation failed")).

Definition confirmed_tx : Transaction.t :=
  Transaction.mk 1 1 (Some 2) None 50 "USDC" 0 (Some "sig123") TxTransfer Confirmed
    None "2026-10-19 09:00:00" (Some "2026-10-19 09:00:05").

Definition s_confirmed : St := mkSt (mkDB [confirmed_tx] [] [] 1 0 0) env0 [].

Definition failed_withdrawal : WithdrawalRequest.t :=
  WithdrawalRequest.mk 1 1 1 50 (Some 49) "USD" (Some "tr_mock_1") WFailed
    (Some "payout rejected") "2026-10-19 09:00:00" None.

Definition s_failed_withdrawal : St :=
  mkSt (mkDB [] [] [failed_withdrawal] 0 0 1) env0 [].

(** The external transfer's writes: the pending INSERT succeeds, the
    spend UPDATE succeeds, the confirming UPDATE fails. *)
Definition s_confirm_fails : St :=
  with_limit (limit_row 1 100 80 "2026-10-19") [false; false; true].

(** The internal transfer's writes: pending INSERT, spend UPDATE, second
    INSERT and confirming UPDATE succeed, and the COMMIT draws a failure
    (it throws anyway, the transaction having ended at the first write). *)
Definition s_commit_fails : St :=
  with_limit (limit_row 1 100 80 "2026-10-19") [false; false; false; false; true].
End Scenario.

(** * Lemmas about the row lookups *)

Lemma find_map_same {A} (p : A -> bool) (g : A -> A) (l : list A) :
  (forall x, p (g x) = p x) ->
  find p (map g l) = option_map g (find p l).
Proof.
  intros Hg; induction l as [|x l IH]; simpl; [reflexivity|].
  rewrite Hg; destruct (p x); [reflexivity | exact IH].
Qed.

Lemma find_app_single {A} (p : A -> bool) (l : list A) (x : A) :
  find p l = None -> find p (l ++ [x]) = if p x then Some x else None.
Proof.
  induction l as [|y l IH]; simpl; [reflexivity|].
  destruct (p y); [discriminate | exact IH].
Qed.

Lemma find_some_true {A} (p : A -> bool) (l : list A) (x : A) :
  find p l = Some x -> p x = true.
Proof.
  induction l as [|y l IH]; simpl; [discriminate|].
  destruct (p y) eqn:E; [intros H; inversion H; subst; exact E | exact IH].
Qed.

Lemma find_limit_update w f d :
  (forall r, SpendingLimit.wallet_id (f r) = SpendingLimit.wallet_id r) ->
  find_limit w (update_limits w f d) = option_map f (find_limit w d).
Proof.
  intros Hf; unfold find_limit, update_limits; simpl.
  rewrite find_map_same.
  - destruct (find _ (spending_limits d)) as [r|] eqn:E; simpl; [|reflexivity].
    apply find_some_true in E; rewrite E; reflexivity.
  - intros x; destruct (SpendingLimit.wallet_id x =? w) eqn:E; [rewrite Hf; exact E | exact E].
Qed.

(** An update of one wallet's row leaves the other wallets' rows alone. *)
Lemma find_limit_update_other w w' f d :
  w' <> w ->
  (forall r, SpendingLimit.wallet_id (f r) = SpendingLimit.wallet_id r) ->
  find_limit w' (update_limits w f d) = find_limit w' d.
Proof.
  intros Hne Hf; unfold find_limit, update_limits; simpl.
  induction (spending_limits d) as [|x l IH]; simpl; [reflexivity|].
  destruct (SpendingLimit.wallet_id x =? w) eqn:E; simpl.
  - rewrite Hf. apply Z.eqb_eq in E. rewrite E.
    assert (Hw : (w =? w') = false) by (apply Z.eqb_neq; congruence).
    rewrite Hw; exact IH.
  - destruct (SpendingLimit.wallet_id x =? w'); [reflexivity | exact IH].
Qed.

Lemma find_limit_insert w dl t n d :
  find_limit w d = None ->
  find_limit w (insert_limit w dl t n d) =
  Some (SpendingLimit.mk (next_id SpendingLimit.id (seq_spending_limits d)
                            (spending_limits d)) w dl 0 t n n).
Proof.
  intros H; unfold find_limit, insert_limit in *; simpl.
  rewrite find_app_single by exact H; simpl; rewrite Z.eqb_refl; reflexivity.
Qed.

Lemma find_app_single_false {A} (p : A -> bool) (l : list A) (x : A) :
  p x = false -> find p (l ++ [x]) = find p l.
Proof.
  intros Hx; induction l as [|y l IH]; simpl; [rewrite Hx; reflexivity|].
  destruct (p y); [reflexivity | exact IH].
Qed.

Lemma find_limit_insert_other w w' dl t n d :
  w' <> w ->
  find_limit w' (insert_limit w dl t n d) = find_limit w' d.
Proof.
  intros Hne; unfold find_limit, insert_limit; simpl.
  apply find_app_single_false; simpl; apply Z.eqb_neq; congruence.
Qed.

(** * The eager rollover of [getOrCreateSpendingLimit] *)

Lemma getOrCreate_spec w s :
  faults s = [] ->
  exists r,
    getOrCreateSpendingLimit w s = (Ok r, set_db s (rolled (env s) w (db s))) /\
    find_limit w (rolled (env s) w (db s)) = Some r /\
    SpendingLimit.used_today r = effective_used (env s) w (db s) /\
    SpendingLimit.daily_limit r = effective_limit (env s) w (db s) /\
    SpendingLimit.reset_date r = today (env s).
Proof.
  destruct s as [d e f]; simpl; intros ->.
  unfold getOrCreateSpendingLimit, rolled, effective_used, effective_limit,
    bind, query, get_env, execute, conn_execute, conn_db, conn_env, Connection_St,
    run_and_save, ret, deref, set_db; simpl.
  destruct (find_limit w d) as [ex|] eqn:E.
  - destruct (String.eqb (SpendingLimit.reset_date ex) (today e)) eqn:Et; simpl.
    + exists ex; rewrite E; repeat split; try reflexivity.
      apply String.eqb_eq; exact Et.
    + unfold reset_limit; rewrite find_limit_update by reflexivity; rewrite E; simpl.
      eexists; repeat split; reflexivity.
  - pose proof (find_limit_insert w (default_daily_limit e) (today e) (now e) d E) as Hi.
    cbn [faults db env]; rewrite !Hi; simpl.
    eexists; repeat split; reflexivity.
Qed.

Lemma checkSpendingAllowed_spec w a s :
  faults s = [] ->
  checkSpendingAllowed w a s =
  (Ok (mkCheck (a <=? effective_limit (env s) w (db s) - effective_used (env s) w (db s))
               (effective_limit (env s) w (db s) - effective_used (env s) w (db s))),
   set_db s (rolled (env s) w (db s))).
Proof.
  intros Hf; destruct (getOrCreate_spec w s Hf) as (r & Hg & _ & Hu & Hl & _).
  unfold checkSpendingAllowed, bind; rewrite Hg, Hu, Hl; reflexivity.
Qed.

Lemma rolled_effective e w d :
  effective_used e w (rolled e w d) = effective_used e w d /\
  effective_limit e w (rolled e w d) = effective_limit e w d.
Proof.
  unfold effective_used, effective_limit, rolled.
  destruct (find_limit w d) as [ex|] eqn:E.
  - destruct (String.eqb (SpendingLimit.reset_date ex) (today e)) eqn:Et.
    + rewrite ?E, ?Et; split; reflexivity.
    + unfold reset_limit; rewrite find_limit_update by reflexivity; rewrite E; simpl.
      rewrite String.eqb_refl; split; reflexivity.
  - rewrite find_limit_insert by exact E; simpl.
    rewrite String.eqb_refl; split; reflexivity.
Qed.

Lemma recordSpending_spec w a s :
  faults s = [] ->
  exists r,
    recordSpending w a s =
      (Ok r, set_db s (add_used w a (now (env s)) (rolled (env s) w (db s)))) /\
    find_limit w (add_used w a (now (env s)) (rolled (env s) w (db s))) = Some r /\
    SpendingLimit.used_today r = effective_used (env s) w (db s) + a /\
    SpendingLimit.daily_limit r = effective_limit (env s) w (db s) /\
    SpendingLimit.reset_date r = today (env s).
Proof.
  intros Hf; destruct (getOrCreate_spec w s Hf) as (r0 & Hg & Hfind & Hu & Hl & Hd).
  destruct s as [d e f]; simpl in *; subst f.
  unfold recordSpending, bind; rewrite Hg.
  unfold set_db, get_env, execute, query, deref, ret; unfold conn_execute, conn_db, conn_env, Connection_St, run_and_save; cbn [faults db env].
  unfold add_used; rewrite find_limit_update by reflexivity; rewrite Hfind; simpl.
  eexists; repeat split; simpl; [rewrite Hu | exact Hl | exact Hd]; reflexivity.
Qed.

Lemma recordSpending_effective w a s :
  faults s = [] ->
  let s' := snd (recordSpending w a s) in
  env s' = env s /\ faults s' = [] /\
  effective_used (env s) w (db s') = effective_used (env s) w (db s) + a /\
  effective_limit (env s) w (db s') = effective_limit (env s) w (db s).
Proof.
  intros Hf; destruct (recordSpending_spec w a s Hf) as (r & Hr & Hfind & Hu & Hl & Hd).
  rewrite Hr; simpl; unfold effective_used, effective_limit; rewrite Hfind, Hd.
  rewrite String.eqb_refl; repeat split; [exact Hf | exact Hu | exact Hl].
Qed.

Lemma filter_update_other w f l :
  (forall r, SpendingLimit.wallet_id (f r) = SpendingLimit.wallet_id r) ->
  filter (fun r => negb (SpendingLimit.wallet_id r =? w))
    (map (fun r => if SpendingLimit.wallet_id r =? w then f r else r) l) =
  filter (fun r => negb (SpendingLimit.wallet_id r =? w)) l.
Proof.
  intros Hf; induction l as [|x l IH]; simpl; [reflexivity|].
  destruct (SpendingLimit.wallet_id x =? w) eqn:E; simpl.
  - rewrite Hf, E; exact IH.
  - rewrite E; simpl; f_equal; exact IH.
Qed.

(** * Spending-limit tracker *)

(** C6: [checkSpendingAllowed] reports [remaining = daily_limit - used_today]
    of the row after rollover and [allowed = (amount <= remaining)]; with
    daily_limit = 100 and used_today = 80, a check of 25 gives
    {allowed:false, remaining:20} and a check of 15 {allowed:true, remaining:20}. *)
Theorem check_remaining_and_allowed (w amount : Z) (s : St) :
  faults s = [] ->
  (exists r,
     find_limit w (db (snd (checkSpendingAllowed w amount s))) = Some r /\
     SpendingLimit.reset_date r = today (env s) /\
     fst (checkSpendingAllowed w amount s) =
       Ok (mkCheck (amount <=? SpendingLimit.daily_limit r - SpendingLimit.used_today r)
                   (SpendingLimit.daily_limit r - SpendingLimit.used_today r))) /\
  fst (checkSpendingAllowed 1 25 Scenario.s_80_of_100) = Ok (mkCheck false 20) /\
  fst (checkSpendingAllowed 1 15 Scenario.s_80_of_100) = Ok (mkCheck true 20).
Proof.
  intros Hf; split; [|split; reflexivity].
  destruct (getOrCreate_spec w s Hf) as (r & Hg & Hfind & Hu & Hl & Hd).
  exists r; unfold checkSpendingAllowed, bind; rewrite Hg; simpl.
  repeat split; assumption.
Qed.

Lemma check_remaining_and_allowed_witness :
  faults Scenario.s_80_of_100 = [] /\
  fst (checkSpendingAllowed 1 25 Scenario.s_80_of_100) = Ok (mkCheck false 20).
Proof.
  split; [reflexivity|].
  exact (proj1 (proj2 (check_remaining_and_allowed 1 25 Scenario.s_80_of_100 eq_refl))).
Defined.

(** C7: recording amounts a1..an in turn within one day adds their sum to
    the counter (as read at the first call: zero for a stale or missing
    row), and a later check allows an amount exactly when that running total
    plus the amount stays within the daily limit. *)
Theorem record_all_accumulates (w : Z) (amounts : list Z) (s : St) :
  faults s = [] ->
  let s' := snd (record_all w amounts s) in
  fst (record_all w amounts s) = Ok tt /\
  env s' = env s /\
  effective_used (env s) w (db s') = effective_used (env s) w (db s) + sum amounts /\
  effective_limit (env s) w (db s') = effective_limit (env s) w (db s) /\
  forall new,
    exists c, fst (checkSpendingAllowed w new s') = Ok c /\
      (allowed c = true <->
       effective_used (env s) w (db s) + sum amounts + new
         <= effective_limit (env s) w (db s)).
Proof.
  revert s; induction amounts as [|a rest IH]; intros s Hf; simpl.
  - repeat split; try reflexivity; [lia|].
    intros new; rewrite checkSpendingAllowed_spec by exact Hf; simpl.
    eexists; split; [reflexivity|]; simpl; rewrite Z.leb_le; lia.
  - destruct (recordSpending_effective w a s Hf) as (He & Hf' & Hu & Hl).
    destruct (recordSpending w a s) as [res s1] eqn:Hr.
    destruct (recordSpending_spec w a s Hf) as (r & Hr' & _).
    rewrite Hr in Hr'; inversion Hr'; subst res; clear Hr'.
    simpl in He, Hf', Hu, Hl; unfold bind; rewrite Hr.
    destruct (IH _ Hf') as (Hok & He2 & Hu2 & Hl2 & Hc).
    rewrite He in *.
    repeat split; [exact Hok | congruence | lia | lia |].
    intros new; destruct (Hc new) as (c & Hc1 & Hc2); exists c; split; [exact Hc1|].
    rewrite Hc2, Hu, Hl; lia.
Qed.

Lemma record_all_accumulates_witness :
  faults Scenario.s_80_of_100 = [] /\
  effective_used (env Scenario.s_80_of_100) 1
    (db (snd (record_all 1 [5; 10] Scenario.s_80_of_100))) = 80 + 15.
Proof.
  split; [reflexivity|].
  exact (proj1 (proj2 (proj2 (record_all_accumulates 1 [5; 10] Scenario.s_80_of_100 eq_refl)))).
Defined.

(** C8: on a new day the first [getOrCreateSpendingLimit] rewrites a stale
    row to used_today = 0, reset_date = today and returns it; every further
    call that day, from the store it left (whatever the later write
    outcomes), returns that same row and changes nothing. *)
Theorem getOrCreate_resets_once (w : Z) (s : St) (ex : SpendingLimit.t) :
  faults s = [] ->
  find_limit w (db s) = Some ex ->
  SpendingLimit.reset_date ex <> today (env s) ->
  exists r,
    getOrCreateSpendingLimit w s =
      (Ok r, set_db s (reset_limit w (today (env s)) (now (env s)) (db s))) /\
    SpendingLimit.used_today r = 0 /\
    SpendingLimit.reset_date r = today (env s) /\
    SpendingLimit.daily_limit r = SpendingLimit.daily_limit ex /\
    forall s2,
      db s2 = reset_limit w (today (env s)) (now (env s)) (db s) ->
      env s2 = env s ->
      getOrCreateSpendingLimit w s2 = (Ok r, s2).
Proof.
  intros Hf Hex Hstale.
  destruct (getOrCreate_spec w s Hf) as (r & Hg & Hfind & Hu & Hl & Hd).
  assert (Hroll : rolled (env s) w (db s) = reset_limit w (today (env s)) (now (env s)) (db s)).
  { unfold rolled; rewrite Hex.
    destruct (String.eqb (SpendingLimit.reset_date ex) (today (env s))) eqn:E;
      [apply String.eqb_eq in E; contradiction | reflexivity]. }
  rewrite Hroll in Hg, Hfind.
  exists r; repeat split; [exact Hg | | exact Hd | |].
  - rewrite Hu; unfold effective_used; rewrite Hex.
    destruct (String.eqb (SpendingLimit.reset_date ex) (today (env s))) eqn:E;
      [apply String.eqb_eq in E; contradiction | reflexivity].
  - rewrite Hl; unfold effective_limit; rewrite Hex; reflexivity.
  - intros s2 Hd2 He2.
    unfold getOrCreateSpendingLimit, bind, query, get_env; unfold conn_execute, conn_db, conn_env, Connection_St, run_and_save.
    rewrite Hd2, Hfind, He2, Hd, String.eqb_refl; reflexivity.
Qed.

Lemma getOrCreate_resets_once_witness :
  exists r, getOrCreateSpendingLimit 1 Scenario.s_stale =
    (Ok r, set_db Scenario.s_stale
             (reset_limit 1 (today (env Scenario.s_stale)) (now (env Scenario.s_stale))
                (db Scenario.s_stale))) /\ SpendingLimit.used_today r = 0.
Proof.
  destruct (getOrCreate_resets_once 1 Scenario.s_stale (Scenario.limit_row 1 100 50 "2026-10-18")
              eq_refl eq_refl ltac:(discriminate)) as (r & Hg & Hu & _).
  exists r; split; [exact Hg | exact Hu].
Defined.

(** C9 as stated fails: a check on a wallet whose row is stale rewrites that
    row (its used_today goes from 50 to 0). *)
Lemma check_mutates_stale_row :
  ~ (snd (checkSpendingAllowed 1 10 Scenario.s_stale) = Scenario.s_stale).
Proof.
  intros H.
  apply (f_equal (fun s => option_map SpendingLimit.used_today (find_limit 1 (db s)))) in H.
  vm_compute in H; discriminate.
Qed.

(** C9, amended: a check writes nothing outside the wallet's own
    spending-limit row. A missing row is created with the default cap,
    used_today 0 and reset_date today; a stale row is rolled over to
    used_today 0 and reset_date today, keeping its cap; a row reset today
    is left as it is, and then the whole state is unchanged. The effective
    used amount and cap are unchanged in every case. *)
Theorem check_changes_only_rollover (w amount : Z) (s : St) :
  faults s = [] ->
  let s' := snd (checkSpendingAllowed w amount s) in
  env s' = env s /\ faults s' = faults s /\
  transactions (db s') = transactions (db s) /\
  withdrawal_requests (db s') = withdrawal_requests (db s) /\
  filter (fun r => negb (SpendingLimit.wallet_id r =? w)) (spending_limits (db s')) =
  filter (fun r => negb (SpendingLimit.wallet_id r =? w)) (spending_limits (db s)) /\
  effective_used (env s) w (db s') = effective_used (env s) w (db s) /\
  effective_limit (env s) w (db s') = effective_limit (env s) w (db s) /\
  (forall r, find_limit w (db s) = Some r ->
             SpendingLimit.reset_date r = today (env s) -> s' = s) /\
  (find_limit w (db s) = None ->
   exists r, find_limit w (db s') = Some r /\
             SpendingLimit.daily_limit r = default_daily_limit (env s) /\
             SpendingLimit.used_today r = 0 /\
             SpendingLimit.reset_date r = today (env s)) /\
  (forall r, find_limit w (db s) = Some r ->
             SpendingLimit.reset_date r <> today (env s) ->
   exists r', find_limit w (db s') = Some r' /\
              SpendingLimit.daily_limit r' = SpendingLimit.daily_limit r /\
              SpendingLimit.used_today r' = 0 /\
              SpendingLimit.reset_date r' = today (env s)).
Proof.
  intros Hf.
  destruct (getOrCreate_spec w s Hf) as (r1 & _ & Hfind & Hu1 & Hl1 & Hd1).
  rewrite checkSpendingAllowed_spec by exact Hf; simpl.
  destruct (rolled_effective (env s) w (db s)) as [Hu Hl].
  split; [reflexivity|]. split; [reflexivity|].
  split; [|split; [|split; [|split; [exact Hu|split; [exact Hl|split; [|split]]]]]].
  - unfold rolled; destruct (find_limit w (db s)) as [ex|];
      [destruct (String.eqb _ _)|]; reflexivity.
  - unfold rolled; destruct (find_limit w (db s)) as [ex|];
      [destruct (String.eqb _ _)|]; reflexivity.
  - unfold rolled; destruct (find_limit w (db s)) as [ex|] eqn:E.
    + destruct (String.eqb _ _); [reflexivity|].
      unfold reset_limit, update_limits; simpl.
      apply filter_update_other; reflexivity.
    + unfold insert_limit; simpl; rewrite filter_app; simpl.
      rewrite Z.eqb_refl; simpl; apply app_nil_r.
  - intros r Hr Hd; unfold rolled; rewrite Hr, Hd, String.eqb_refl.
    destruct s; simpl in *; subst; reflexivity.
  - intros Hn; exists r1; split; [exact Hfind|].
    unfold effective_used, effective_limit in *; rewrite Hn in Hu1, Hl1.
    split; [exact Hl1|split; [exact Hu1|exact Hd1]].
  - intros r Hr Hd; exists r1; split; [exact Hfind|].
    unfold effective_used, effective_limit in *; rewrite Hr in Hu1, Hl1.
    apply String.eqb_neq in Hd; rewrite Hd in Hu1.
    split; [exact Hl1|split; [exact Hu1|exact Hd1]].
Qed.

Lemma check_changes_only_rollover_witness :
  effective_used (env Scenario.s_stale) 1
    (db (snd (checkSpendingAllowed 1 10 Scenario.s_stale))) =
  effective_used (env Scenario.s_stale) 1 (db Scenario.s_stale).
Proof.
  exact (proj1 (proj2 (proj2 (proj2 (proj2 (proj2
    (check_changes_only_rollover 1 10 Scenario.s_stale eq_refl))))))).
Defined.

(** C10: [recordSpending] adds the amount whatever the cap: it never
    compares with daily_limit and, absent a storage failure, always
    succeeds; past the cap, a later check reports a negative remaining. *)
Theorem record_ignores_cap (w amount : Z) (s : St) :
  faults s = [] ->
  exists r,
    fst (recordSpending w amount s) = Ok r /\
    SpendingLimit.used_today r = effective_used (env s) w (db s) + amount /\
    SpendingLimit.daily_limit r = effective_limit (env s) w (db s) /\
    (effective_limit (env s) w (db s) < effective_used (env s) w (db s) + amount ->
     forall x, exists c,
       fst (checkSpendingAllowed w x (snd (recordSpending w amount s))) = Ok c /\
       remaining c < 0 /\ (0 <= x -> allowed c = false)).
Proof.
  intros Hf.
  destruct (recordSpending_spec w amount s Hf) as (r & Hr & _ & Hu & Hl & _).
  destruct (recordSpending_effective w amount s Hf) as (He & Hf' & Hu' & Hl').
  exists r; repeat split; [rewrite Hr; reflexivity | exact Hu | exact Hl |].
  intros Hover x.
  rewrite checkSpendingAllowed_spec by exact Hf'.
  rewrite He, Hu', Hl'.
  eexists; split; [reflexivity|]; simpl; split; [lia|].
  intros Hx; apply Z.leb_gt; lia.
Qed.

Lemma record_ignores_cap_witness :
  exists r, fst (recordSpending 1 50 Scenario.s_80_of_100) = Ok r /\
            SpendingLimit.used_today r = 80 + 50.
Proof.
  destruct (record_ignores_cap 1 50 Scenario.s_80_of_100 eq_refl) as (r & H1 & H2 & _).
  exists r; split; assumption.
Defined.

(** * Transaction ledger *)

Lemma find_tx_update i f d :
  (forall r, Transaction.id (f r) = Transaction.id r) ->
  find_tx i (update_txs i f d) = option_map f (find_tx i d).
Proof.
  intros Hf; unfold find_tx, update_txs; simpl.
  rewrite find_map_same.
  - destruct (find _ (transactions d)) as [r|] eqn:E; simpl; [|reflexivity].
    apply find_some_true in E; rewrite E; reflexivity.
  - intros x; destruct (Transaction.id x =? i) eqn:E; [rewrite Hf|]; exact E.
Qed.

Lemma updateTransactionStatus_spec i status o s r :
  faults s = [] ->
  find_tx i (db s) = Some r ->
  updateTransactionStatus i status o s =
    (Ok (transitioned (env s) status o r),
     set_db s (update_txs i (transitioned (env s) status o) (db s))).
Proof.
  destruct s as [d e f]; simpl; intros -> Hr.
  unfold updateTransactionStatus, bind, get_env, query, deref, ret, execute, set_db; unfold conn_execute, conn_db, conn_env, Connection_St, run_and_save;
    cbn [faults db env].
  destruct status; cbn beta iota; cbn [faults db env];
    rewrite find_tx_update by reflexivity; rewrite Hr; reflexivity.
Qed.

(** C2 as stated fails: a confirmed transaction is moved to failed, and a
    failed withdrawal request to completed. *)
Lemma terminal_status_overwritten :
  Transaction.status Scenario.confirmed_tx = Confirmed /\
  option_map Transaction.status
    (find_tx 1 (db (snd (updateTransactionStatus 1 Failed
                          (mkStatusOptions None (Some "late failure"))
                          Scenario.s_confirmed)))) = Some Failed /\
  WithdrawalRequest.status Scenario.failed_withdrawal = WFailed /\
  option_map WithdrawalRequest.status
    (find_withdrawal 1 (db (snd (completeWithdrawal 1 Scenario.s_failed_withdrawal))))
    = Some WCompleted.
Proof. vm_compute; repeat split. Qed.

Lemma find_withdrawal_complete q n d :
  find_withdrawal q (complete_rows q n d) =
  option_map (fun r =>
    WithdrawalRequest.mk (WithdrawalRequest.id r) (WithdrawalRequest.user_id r)
      (WithdrawalRequest.wallet_id r) (WithdrawalRequest.amount_usdc r)
      (WithdrawalRequest.amount_fiat r) (WithdrawalRequest.fiat_currency r)
      (WithdrawalRequest.stripe_transfer_id r) WCompleted
      (WithdrawalRequest.error_message r) (WithdrawalRequest.created_at r) (Some n))
    (find_withdrawal q d).
Proof.
  unfold find_withdrawal, complete_rows; simpl.
  rewrite find_map_same.
  - destruct (find _ (withdrawal_requests d)) as [r|] eqn:E; simpl; [|reflexivity].
    apply find_some_true in E; rewrite E; reflexivity.
  - intros x; destruct (WithdrawalRequest.id x =? q) eqn:E; exact E.
Qed.

(** C2, amended: neither transition guards on the current status.
    [updateTransactionStatus(id, status)] writes [status] over whatever the
    row held, terminal or not, and [completeWithdrawal(id)] writes
    [completed] over whatever the request held. *)
Theorem transitions_overwrite_any_status (i q : Z) (status : tx_status)
    (o : StatusOptions) (s : St) :
  faults s = [] ->
  (forall r, find_tx i (db s) = Some r ->
     exists r', fst (updateTransactionStatus i status o s) = Ok r' /\
       find_tx i (db (snd (updateTransactionStatus i status o s))) = Some r' /\
       Transaction.status r' = status) /\
  (forall wr, find_withdrawal q (db s) = Some wr ->
     exists wr', fst (completeWithdrawal q s) = Ok (Some wr') /\
       find_withdrawal q (db (snd (completeWithdrawal q s))) = Some wr' /\
       WithdrawalRequest.status wr' = WCompleted).
Proof.
  intros Hf; split.
  - intros r Hr; rewrite (updateTransactionStatus_spec i status o s r Hf Hr);
      cbn [fst snd db set_db].
    eexists; split; [reflexivity|]; split; [|reflexivity].
    rewrite find_tx_update by reflexivity; rewrite Hr; reflexivity.
  - intros wr Hw; destruct s as [d e f]; simpl in *; subst f.
    unfold completeWithdrawal, bind, get_env, execute, query; unfold conn_execute, conn_db, conn_env, Connection_St, run_and_save; cbn [faults db env fst snd].
    rewrite !find_withdrawal_complete, Hw; simpl.
    eexists; split; [reflexivity|]; split; reflexivity.
Qed.

Lemma transitions_overwrite_any_status_witness :
  exists r', fst (updateTransactionStatus 1 Failed (mkStatusOptions None (Some "late"))
                    Scenario.s_confirmed) = Ok r' /\ Transaction.status r' = Failed.
Proof.
  destruct (proj1 (transitions_overwrite_any_status 1 1 Failed
                     (mkStatusOptions None (Some "late")) Scenario.s_confirmed eq_refl)
              Scenario.confirmed_tx eq_refl) as (r' & H1 & _ & H3).
  exists r'; split; assumption.
Defined.

(** C4 as stated fails: a transition carrying a new reference replaces the
    reference already stored ("sig123" becomes "sig999"). *)
Lemma settlement_ref_replaced :
  Transaction.tx_signature Scenario.confirmed_tx = Some "sig123" /\
  option_map Transaction.tx_signature
    (find_tx 1 (db (snd (updateTransactionStatus 1 Confirmed
                          (mkStatusOptions (Some "sig999") None)
                          Scenario.s_confirmed)))) = Some (Some "sig999").
Proof. vm_compute; split; reflexivity. Qed.

(** C4, amended: [tx_signature = COALESCE(?, tx_signature)] makes a
    provided non-empty reference replace the stored one (last writer wins);
    only an absent or empty reference leaves the stored one in place. *)
Theorem settlement_ref_last_writer (i : Z) (status : tx_status) (o : StatusOptions)
    (s : St) (r : Transaction.t) :
  faults s = [] ->
  find_tx i (db s) = Some r ->
  exists r',
    find_tx i (db (snd (updateTransactionStatus i status o s))) = Some r' /\
    Transaction.tx_signature r' =
      match st_txSignature o with
      | Some sig => if String.eqb sig "" then Transaction.tx_signature r else Some sig
      | None => Transaction.tx_signature r
      end.
Proof.
  intros Hf Hr; rewrite (updateTransactionStatus_spec i status o s r Hf Hr);
    cbn [fst snd db set_db].
  rewrite find_tx_update by reflexivity; rewrite Hr; simpl.
  eexists; split; [reflexivity|].
  unfold transitioned, set_status, coalesce, str_or_null; simpl.
  destruct (st_txSignature o) as [sig|]; [|reflexivity].
  destruct (String.eqb sig "") eqn:E.
  - apply String.eqb_eq in E; subst; reflexivity.
  - destruct sig; [discriminate | reflexivity].
Qed.

Lemma settlement_ref_last_writer_witness :
  exists r',
    find_tx 1 (db (snd (updateTransactionStatus 1 Confirmed
                          (mkStatusOptions (Some "sig999") None) Scenario.s_confirmed)))
      = Some r' /\ Transaction.tx_signature r' = Some "sig999".
Proof.
  destruct (settlement_ref_last_writer 1 Confirmed (mkStatusOptions (Some "sig999") None)
              Scenario.s_confirmed Scenario.confirmed_tx eq_refl eq_refl) as (r' & H1 & H2).
  exists r'; split; [exact H1 | exact H2].
Defined.

(** * Transfer orchestration *)

Lemma bind_ok {S A B} (m : MS S A) (k : A -> MS S B) s a s' :
  m s = (Ok a, s') -> bind m k s = k a s'.
Proof. intros H; unfold bind; rewrite H; reflexivity. Qed.

Lemma get_env_St (s : St) : get_env s = (Ok (env s), s).
Proof. reflexivity. Qed.

Lemma query_St {A} (f : DB -> A) (s : St) : query f s = (Ok (f (db s)), s).
Proof. reflexivity. Qed.

Lemma try_catch_err {A} (m : M A) h s e s' :
  m s = (Err e, s') -> try_catch m h s = h e s'.
Proof. intros H; unfold try_catch; rewrite H; reflexivity. Qed.

Lemma max_id_ge {R} (id : R -> Z) (l : list R) (r : R) :
  In r l -> id r <= max_id id l.
Proof.
  induction l as [|x l IH]; simpl; [contradiction|].
  intros [<-|H]; [lia|]; specialize (IH H); lia.
Qed.

Lemma below_next_id {R} (id : R -> Z) (seq : Z) (l : list R) (r : R) :
  In r l -> id r < next_id id seq l.
Proof. intros H; apply (max_id_ge id) in H; unfold next_id; lia. Qed.

Lemma max_by_id_last {R} (id : R -> Z) (l : list R) (x : R) :
  (forall y, In y l -> id y < id x) -> max_by_id id (l ++ [x]) = Some x.
Proof.
  induction l as [|y l IH]; intros Hl; simpl; [reflexivity|].
  rewrite IH by (intros z Hz; apply Hl; right; exact Hz).
  assert (Hy : id y < id x) by (apply Hl; left; reflexivity).
  destruct (id x <? id y) eqn:E; [apply Z.ltb_lt in E; lia | reflexivity].
Qed.

Lemma find_id_fresh (l : list Transaction.t) (i : Z) :
  (forall y, In y l -> Transaction.id y < i) ->
  find (fun r => Transaction.id r =? i) l = None.
Proof.
  induction l as [|y l IH]; intros Hl; simpl; [reflexivity|].
  assert (Hy : Transaction.id y < i) by (apply Hl; left; reflexivity).
  destruct (Transaction.id y =? i) eqn:E; [apply Z.eqb_eq in E; lia|].
  apply IH; intros z Hz; apply Hl; right; exact Hz.
Qed.

Lemma tx_type_eqb_refl t : tx_type_eqb t t = true.
Proof. destruct t; reflexivity. Qed.

(** [createTransaction] finds back exactly the row it inserted: the
    re-query's [ORDER BY id DESC] picks the fresh AUTOINCREMENT id. *)
Lemma createTransaction_spec fromWalletId amount txType o s :
  faults s = [] ->
  let i := next_id Transaction.id (seq_transactions (db s)) (transactions (db s)) in
  let ptx := Transaction.mk i fromWalletId (z_or_null (toWalletId o))
               (str_or_null (toExternalAddress o)) amount "USDC"
               (z_or_zero (fee_opt o)) (str_or_null (txSignature o)) txType
               Pending None (now (env s)) None in
  createTransaction fromWalletId amount txType o s =
    (Ok ptx, set_db s (insert_tx fromWalletId amount txType o (now (env s)) (db s))) /\
  find_tx i (insert_tx fromWalletId amount txType o (now (env s)) (db s)) = Some ptx.
Proof.
  destruct s as [d e f]; simpl; intros ->.
  assert (Hlt : forall y, In y (transactions d) ->
            Transaction.id y < next_id Transaction.id (seq_transactions d) (transactions d))
    by (intros y Hy; apply below_next_id; exact Hy).
  split.
  - unfold createTransaction, bind, get_env, execute, query, deref, ret, set_db; unfold conn_execute, conn_db, conn_env, Connection_St, run_and_save;
      cbn [faults db env].
    unfold latest_tx, insert_tx; cbn [transactions].
    rewrite filter_app; simpl.
    rewrite !Z.eqb_refl, tx_type_eqb_refl; simpl.
    rewrite max_by_id_last; [reflexivity|].
    intros y Hy; apply filter_In in Hy; apply Hlt; apply Hy.
  - unfold find_tx, insert_tx; cbn [transactions].
    rewrite find_app_single by (apply find_id_fresh; exact Hlt).
    simpl; rewrite Z.eqb_refl; reflexivity.
Qed.

Lemma rolled_tables e w d :
  transactions (rolled e w d) = transactions d /\
  seq_transactions (rolled e w d) = seq_transactions d.
Proof.
  unfold rolled; destruct (find_limit w d);
    [destruct (String.eqb _ _)|]; split; reflexivity.
Qed.

Lemma effective_used_limits e w d1 d2 :
  spending_limits d1 = spending_limits d2 ->
  effective_used e w d1 = effective_used e w d2.
Proof. intros H; unfold effective_used, find_limit; rewrite H; reflexivity. Qed.

Lemma transfer_settlement_failure (fromW toW : Wallet.t) (amount : Z) (net : Net)
    (err : exn) (s : St) :
  faults s = [] ->
  amount <= effective_limit (env s) (Wallet.id fromW) (db s)
            - effective_used (env s) (Wallet.id fromW) (db s) ->
  has_enough_usdc net = true ->
  transfer_usdc net (Wallet.public_key toW)
    (amount - amount * platform_fee_percent (env s) / 100) = Err err ->
  let i := next_id Transaction.id (seq_transactions (db s)) (transactions (db s)) in
  let s' := snd (transfer fromW toW amount net s) in
  fst (transfer fromW toW amount net s) = Ok (declined (message_of err)) /\
  (exists ptx, find_tx i (db s') = Some ptx /\
     Transaction.status ptx = Failed /\
     Transaction.error_message ptx = str_or_null (Some (message_of err)) /\
     Transaction.from_wallet_id ptx = Wallet.id fromW /\
     Transaction.amount ptx = amount) /\
  spending_limits (db s') = spending_limits (rolled (env s) (Wallet.id fromW) (db s)) /\
  effective_used (env s) (Wallet.id fromW) (db s') =
  effective_used (env s) (Wallet.id fromW) (db s).
Proof.
  intros Hf Hallow Hbal Hsub i.
  set (w := Wallet.id fromW) in *.
  set (s1 := set_db s (rolled (env s) w (db s))).
  assert (Hf1 : faults s1 = []) by exact Hf.
  destruct (rolled_tables (env s) w (db s)) as [Ht Hseq].
  set (fee := amount * platform_fee_percent (env s) / 100).
  set (o := mkCreateOptions (Some (Wallet.id toW)) None (Some fee) None).
  destruct (createTransaction_spec w amount TxTransfer o s1 Hf1) as [Hc Hfind].
  set (s2 := set_db s1 (insert_tx w amount TxTransfer o (now (env s1)) (db s1))) in Hc.
  assert (Hf2 : faults s2 = []) by exact Hf.
  cbn [db env s1 set_db] in Hfind.
  rewrite Ht, Hseq in Hfind; fold i in Hfind.
  cbn [db s1 set_db] in Hc; rewrite Ht, Hseq in Hc; fold i in Hc.
  set (ptx := Transaction.mk i _ _ _ _ _ _ _ _ _ _ _ _) in Hc, Hfind.
  assert (Hfind2 : find_tx i (db s2) = Some ptx) by exact Hfind.
  pose proof (updateTransactionStatus_spec i Failed
                (mkStatusOptions None (Some (message_of err))) s2 ptx Hf2 Hfind2) as Hu.
  assert (Hrun : transfer fromW toW amount net s =
            (Ok (declined (message_of err)),
             set_db s2 (update_txs i (transitioned (env s2) Failed
                          (mkStatusOptions None (Some (message_of err)))) (db s2)))).
  { unfold transfer.
    rewrite (bind_ok _ _ _ _ _ (checkSpendingAllowed_spec w amount s Hf)).
    cbn [allowed].
    rewrite (proj2 (Z.leb_le _ _) Hallow), Hbal; cbn [negb].
    rewrite (bind_ok get_env _ s1 (env s) s1 (get_env_St s1)).
    rewrite (bind_ok _ _ _ _ _ Hc).
    rewrite (try_catch_err _ _ _ err s2).
    - rewrite (bind_ok _ _ _ _ _ Hu); reflexivity.
    - unfold bind, lift_result; rewrite Hsub; reflexivity. }
  rewrite Hrun; cbn [fst snd db set_db].
  assert (Hsl : spending_limits (update_txs i (transitioned (env s2) Failed
                  (mkStatusOptions None (Some (message_of err)))) (db s2)) =
                spending_limits (rolled (env s) w (db s))) by reflexivity.
  split; [reflexivity|]; split; [|split; [exact Hsl|]].
  - rewrite find_tx_update by reflexivity; rewrite Hfind2; simpl.
    eexists; repeat split.
  - rewrite (effective_used_limits _ _ _ _ Hsl).
    apply rolled_effective.
Qed.

Lemma transferExternal_settlement_failure (fromW : Wallet.t) (toAddress : string)
    (amount : Z) (net : Net) (err : exn) (s : St) :
  faults s = [] ->
  valid_address net toAddress = true ->
  amount <= effective_limit (env s) (Wallet.id fromW) (db s)
            - effective_used (env s) (Wallet.id fromW) (db s) ->
  has_enough_usdc net = true ->
  transfer_usdc net toAddress amount = Err err ->
  let i := next_id Transaction.id (seq_transactions (db s)) (transactions (db s)) in
  let s' := snd (transferExternal fromW toAddress amount net s) in
  fst (transferExternal fromW toAddress amount net s) = Ok (declined (message_of err)) /\
  (exists ptx, find_tx i (db s') = Some ptx /\
     Transaction.status ptx = Failed /\
     Transaction.error_message ptx = str_or_null (Some (message_of err)) /\
     Transaction.from_wallet_id ptx = Wallet.id fromW /\
     Transaction.amount ptx = amount) /\
  spending_limits (db s') = spending_limits (rolled (env s) (Wallet.id fromW) (db s)) /\
  effective_used (env s) (Wallet.id fromW) (db s') =
  effective_used (env s) (Wallet.id fromW) (db s).
Proof.
  intros Hf Hvalid Hallow Hbal Hsub i.
  set (w := Wallet.id fromW) in *.
  set (s1 := set_db s (rolled (env s) w (db s))).
  assert (Hf1 : faults s1 = []) by exact Hf.
  destruct (rolled_tables (env s) w (db s)) as [Ht Hseq].
  set (o := mkCreateOptions None (Some toAddress) None None).
  destruct (createTransaction_spec w amount TxTransfer o s1 Hf1) as [Hc Hfind].
  set (s2 := set_db s1 (insert_tx w amount TxTransfer o (now (env s1)) (db s1))) in Hc.
  assert (Hf2 : faults s2 = []) by exact Hf.
  cbn [db env s1 set_db] in Hfind.
  rewrite Ht, Hseq in Hfind; fold i in Hfind.
  cbn [db s1 set_db] in Hc; rewrite Ht, Hseq in Hc; fold i in Hc.
  set (ptx := Transaction.mk i _ _ _ _ _ _ _ _ _ _ _ _) in Hc, Hfind.
  assert (Hfind2 : find_tx i (db s2) = Some ptx) by exact Hfind.
  pose proof (updateTransactionStatus_spec i Failed
                (mkStatusOptions None (Some (message_of err))) s2 ptx Hf2 Hfind2) as Hu.
  assert (Hrun : transferExternal fromW toAddress amount net s =
            (Ok (declined (message_of err)),
             set_db s2 (update_txs i (transitioned (env s2) Failed
                          (mkStatusOptions None (Some (message_of err)))) (db s2)))).
  { unfold transferExternal; rewrite Hvalid; cbn [negb].
    rewrite (bind_ok _ _ _ _ _ (checkSpendingAllowed_spec w amount s Hf)).
    cbn [allowed].
    rewrite (proj2 (Z.leb_le _ _) Hallow), Hbal; cbn [negb].
    rewrite (bind_ok get_env _ s1 (env s) s1 (get_env_St s1)).
    rewrite (bind_ok _ _ _ _ _ Hc).
    rewrite (try_catch_err _ _ _ err s2).
    - rewrite (bind_ok _ _ _ _ _ Hu); reflexivity.
    - unfold bind, lift_result; rewrite Hsub; reflexivity. }
  rewrite Hrun; cbn [fst snd db set_db].
  assert (Hsl : spending_limits (update_txs i (transitioned (env s2) Failed
                  (mkStatusOptions None (Some (message_of err)))) (db s2)) =
                spending_limits (rolled (env s) w (db s))) by reflexivity.
  split; [reflexivity|]; split; [|split; [exact Hsl|]].
  - rewrite find_tx_update by reflexivity; rewrite Hfind2; simpl.
    eexists; repeat split.
  - rewrite (effective_used_limits _ _ _ _ Hsl).
    apply rolled_effective.
Qed.

(** C5 as stated fails: when the wallet's row was last reset on an earlier
    day, the failed transfer's spending check rolls it over, so the stored
    used_today goes from 50 to 0 although the settlement failed. *)
Lemma failed_transfer_moves_stale_counter :
  option_map SpendingLimit.used_today (find_limit 1 (db Scenario.s_stale)) = Some 50 /\
  fst (transfer Scenario.alice Scenario.bob 10 Scenario.net_down Scenario.s_stale) =
    Ok (declined "Transaction simulation failed") /\
  option_map SpendingLimit.used_today
    (find_limit 1 (db (snd (transfer Scenario.alice Scenario.bob 10 Scenario.net_down
                              Scenario.s_stale)))) = Some 0.
Proof. vm_compute; repeat split. Qed.

(** C5, amended: when the settlement call of [transfer] or
    [transferExternal] throws (and no storage write fails), the call
    returns success = false with the error's message, the pending row it
    created is marked failed with that message (NULL for an empty
    message), and no spend is recorded: the wallet's spending-limit row is
    exactly the one the initial check's day rollover left, so its effective
    used_today (0 for a stale or missing row) is unchanged. *)
Theorem settlement_failure_records_no_spend (fromW toW : Wallet.t) (toAddress : string)
    (amount : Z) (net : Net) (err : exn) (s : St) :
  faults s = [] ->
  amount <= effective_limit (env s) (Wallet.id fromW) (db s)
            - effective_used (env s) (Wallet.id fromW) (db s) ->
  has_enough_usdc net = true ->
  (forall to a, transfer_usdc net to a = Err err) ->
  valid_address net toAddress = true ->
  let i := next_id Transaction.id (seq_transactions (db s)) (transactions (db s)) in
  (forall run, run = transfer fromW toW amount net \/
               run = transferExternal fromW toAddress amount net ->
   let s' := snd (run s) in
   fst (run s) = Ok (declined (message_of err)) /\
   (exists ptx, find_tx i (db s') = Some ptx /\
      Transaction.status ptx = Failed /\
      Transaction.error_message ptx = str_or_null (Some (message_of err)) /\
      Transaction.from_wallet_id ptx = Wallet.id fromW /\
      Transaction.amount ptx = amount) /\
   spending_limits (db s') = spending_limits (rolled (env s) (Wallet.id fromW) (db s)) /\
   effective_used (env s) (Wallet.id fromW) (db s') =
   effective_used (env s) (Wallet.id fromW) (db s)).
Proof.
  intros Hf Hallow Hbal Hsub Hvalid i run [-> | ->].
  - apply transfer_settlement_failure; auto.
  - apply transferExternal_settlement_failure; auto.
Qed.

Lemma settlement_failure_records_no_spend_witness :
  fst (transfer Scenario.alice Scenario.bob 10 Scenario.net_down Scenario.s_80_of_100) =
    Ok (declined "Transaction simulation failed") /\
  effective_used (env Scenario.s_80_of_100) 1
    (db (snd (transfer Scenario.alice Scenario.bob 10 Scenario.net_down
                Scenario.s_80_of_100))) = 80.
Proof.
  destruct (settlement_failure_records_no_spend Scenario.alice Scenario.bob
              Scenario.outside 10 Scenario.net_down
              (JsError "Transaction simulation failed") Scenario.s_80_of_100
              eq_refl ltac:(vm_compute; discriminate) eq_refl (fun _ _ => eq_refl) eq_refl
              _ (or_introl eq_refl)) as (H1 & _ & _ & H4).
  split; [exact H1 | exact H4].
Defined.

(** C1 (defect): [transferExternal] records the spend and confirms the
    transaction in two separate writes outside [runTransaction]. When the
    confirming write fails after the spend write succeeded, the wallet's
    used_today has grown from 80 to 90 while the transaction ends [failed].
    The sibling path [transfer] makes the spend write first inside
    [executeTransfer]'s [runTransaction], where [saveDb]'s export undoes it
    and ends the transaction; COMMIT and ROLLBACK then find no open
    transaction, so used_today stays at 80 and the pending row ends
    [failed]. *)
Theorem transferExternal_spend_outside_unit_of_work :
  fst (transferExternal Scenario.alice Scenario.outside 10 Scenario.net_ok
         Scenario.s_confirm_fails) = Ok (declined "SQLITE_IOERR") /\
  option_map SpendingLimit.used_today
    (find_limit 1 (db (snd (transferExternal Scenario.alice Scenario.outside 10
                              Scenario.net_ok Scenario.s_confirm_fails)))) = Some 90 /\
  option_map Transaction.status
    (find_tx 1 (db (snd (transferExternal Scenario.alice Scenario.outside 10
                           Scenario.net_ok Scenario.s_confirm_fails)))) = Some Failed /\
  option_map SpendingLimit.used_today
    (find_limit 1 (db (snd (transfer Scenario.alice Scenario.bob 10
                              Scenario.net_ok Scenario.s_commit_fails)))) = Some 80 /\
  option_map Transaction.status
    (find_tx 1 (db (snd (transfer Scenario.alice Scenario.bob 10
                           Scenario.net_ok Scenario.s_commit_fails)))) = Some Failed.
Proof. vm_compute; repeat split. Qed.

(** C3 (defect): when the settlement call of an internal [transfer]
    succeeds, the pending row created before it is never confirmed.
    [executeTransfer] inserts and confirms a second row, and its first
    write (the spend) is undone when [saveDb] closes the database inside
    the transaction; COMMIT and then ROLLBACK find no open transaction and
    throw. [transfer] then marks the pending row failed and reports
    failure: after a settled payment the ledger holds two rows for it, row 1
    failed and row 2 confirmed with the settlement reference, and
    used_today stays at 80. *)
Theorem transfer_confirms_second_row :
  let s' := snd (transfer Scenario.alice Scenario.bob 10 Scenario.net_ok
                   Scenario.s_80_of_100) in
  fst (transfer Scenario.alice Scenario.bob 10 Scenario.net_ok Scenario.s_80_of_100)
    = Ok (declined "cannot rollback - no transaction is active") /\
  List.length (transactions (db s')) = 2%nat /\
  option_map Transaction.status (find_tx 1 (db s')) = Some Failed /\
  option_map Transaction.error_message (find_tx 1 (db s')) =
    Some (Some "cannot rollback - no transaction is active") /\
  option_map Transaction.status (find_tx 2 (db s')) = Some Confirmed /\
  option_map Transaction.tx_signature (find_tx 2 (db s')) = Some (Some "sig123") /\
  option_map SpendingLimit.used_today (find_limit 1 (db s')) = Some 80.
Proof. vm_compute; repeat split. Qed.

(** * Spending-limit administration *)

(** The table [updateSpendingLimit] works on: the existing row, or the one
    [getOrCreateSpendingLimit] inserts for a wallet that has none. *)
Lemma updateSpendingLimit_spec w n s :
  faults s = [] ->
  let d0 := match find_limit w (db s) with
            | Some _ => db s
            | None => insert_limit w (default_daily_limit (env s)) (today (env s))
                        (now (env s)) (db s)
            end in
  let d1 := set_daily_limit w n (now (env s)) d0 in
  updateSpendingLimit w n s = (Ok (find_limit w d1), set_db s d1).
Proof.
  intros Hf d0 d1.
  destruct (find_limit w (db s)) as [r|] eqn:E.
  - destruct s as [d e f]; simpl in *; subst f.
    unfold updateSpendingLimit, bind, query, get_env, execute, ret, set_db; unfold conn_execute, conn_db, conn_env, Connection_St, run_and_save;
      cbn [faults db env]; rewrite E; reflexivity.
  - destruct (getOrCreate_spec w s Hf) as (r & Hg & _).
    unfold updateSpendingLimit.
    rewrite (bind_ok (query (find_limit w)) _ s (find_limit w (db s)) s (query_St _ s)), E.
    unfold rolled in Hg; rewrite E in Hg.
    rewrite (bind_ok _ _ _ _ _ (bind_ok _ _ _ _ _ Hg)).
    destruct s as [d e f]; simpl in *; subst f.
    unfold bind, query, get_env, execute, ret, set_db; unfold conn_execute, conn_db, conn_env, Connection_St, run_and_save; cbn [faults db env].
    reflexivity.
Qed.

Lemma find_limit_set_daily w n t d :
  find_limit w (set_daily_limit w n t d) =
  option_map (fun r => SpendingLimit.mk (SpendingLimit.id r) (SpendingLimit.wallet_id r) n
                 (SpendingLimit.used_today r) (SpendingLimit.reset_date r)
                 (SpendingLimit.created_at r) t) (find_limit w d).
Proof. unfold set_daily_limit; apply find_limit_update; reflexivity. Qed.

Lemma setLimit_spec w n s :
  faults s = [] -> 0 <= n ->
  exists r,
    find_limit w (db (snd (setLimit w n s))) = Some r /\
    fst (setLimit w n s) = Ok (limit_status_of r) /\
    SpendingLimit.daily_limit r = n /\
    env (snd (setLimit w n s)) = env s /\ faults (snd (setLimit w n s)) = [] /\
    match find_limit w (db s) with
    | Some r0 => SpendingLimit.used_today r = SpendingLimit.used_today r0 /\
                 SpendingLimit.reset_date r = SpendingLimit.reset_date r0
    | None => SpendingLimit.used_today r = 0 /\
              SpendingLimit.reset_date r = today (env s)
    end.
Proof.
  intros Hf Hn.
  pose proof (updateSpendingLimit_spec w n s Hf) as Hu; cbv zeta in Hu.
  assert (Hset : setLimit w n s =
            bind (updateSpendingLimit w n) (fun l => l' <- deref l ;; ret (limit_status_of l')) s).
  { unfold setLimit; rewrite (proj2 (Z.ltb_ge n 0) Hn); reflexivity. }
  rewrite Hset, (bind_ok _ _ _ _ _ Hu).
  destruct (find_limit w (db s)) as [r0|] eqn:E.
  - set (d1 := set_daily_limit w n (now (env s)) (db s)) in *.
    assert (Hd : find_limit w d1 = Some (SpendingLimit.mk (SpendingLimit.id r0)
              (SpendingLimit.wallet_id r0) n (SpendingLimit.used_today r0)
              (SpendingLimit.reset_date r0) (SpendingLimit.created_at r0) (now (env s))))
      by (unfold d1; rewrite find_limit_set_daily, E; reflexivity).
    unfold bind, deref, ret; rewrite Hd; cbn [snd fst set_db db env faults].
    rewrite Hd; eexists; repeat split; exact Hf.
  - set (d1 := set_daily_limit w n (now (env s)) _) in *.
    assert (Hd : exists r, find_limit w d1 = Some r /\ SpendingLimit.daily_limit r = n /\
                   SpendingLimit.used_today r = 0 /\ SpendingLimit.reset_date r = today (env s))
      by (unfold d1; rewrite find_limit_set_daily, find_limit_insert by exact E;
          eexists; repeat split).
    destruct Hd as (r & Hd & Hl & Hu0 & Hr).
    unfold bind, deref, ret; rewrite Hd; cbn [snd fst set_db db env faults].
    rewrite Hd; exists r; repeat split; assumption.
Qed.

Lemma setLimit_state w n s :
  faults s = [] -> 0 <= n ->
  db (snd (setLimit w n s)) =
  set_daily_limit w n (now (env s))
    (match find_limit w (db s) with
     | Some _ => db s
     | None => insert_limit w (default_daily_limit (env s)) (today (env s))
                 (now (env s)) (db s)
     end).
Proof.
  intros Hf Hn.
  pose proof (updateSpendingLimit_spec w n s Hf) as Hu; cbv zeta in Hu.
  unfold setLimit; rewrite (proj2 (Z.ltb_ge n 0) Hn).
  rewrite (bind_ok _ _ _ _ _ Hu).
  destruct (find_limit w (db s)) as [r0|] eqn:E.
  - rewrite find_limit_set_daily, E; reflexivity.
  - rewrite find_limit_set_daily, find_limit_insert by exact E; reflexivity.
Qed.

Lemma getLimitStatus_spec w s :
  faults s = [] ->
  getLimitStatus w s =
  (Ok (mkLimitStatus (effective_limit (env s) w (db s)) (effective_used (env s) w (db s))
         (effective_limit (env s) w (db s) - effective_used (env s) w (db s))
         (today (env s))),
   set_db s (rolled (env s) w (db s))).
Proof.
  intros Hf; destruct (getOrCreate_spec w s Hf) as (r & Hg & _ & Hu & Hl & Hd).
  unfold getLimitStatus; rewrite (bind_ok _ _ _ _ _ Hg).
  unfold ret, limit_status_of; rewrite Hu, Hl, Hd; reflexivity.
Qed.

(** [setLimit] refuses a negative cap before touching the database. *)
Theorem setLimit_negative_rejected (w n : Z) (s : St) :
  n < 0 ->
  setLimit w n s = (Err (JsError "Spending limit cannot be negative"), s).
Proof.
  intros Hn; unfold setLimit; rewrite (proj2 (Z.ltb_lt n 0) Hn); reflexivity.
Qed.

Lemma setLimit_negative_rejected_witness :
  -5 < 0 /\
  setLimit 1 (-5) Scenario.s_80_of_100 =
  (Err (JsError "Spending limit cannot be negative"), Scenario.s_80_of_100).
Proof. split; [lia | apply setLimit_negative_rejected; lia]. Defined.

(** On an existing row [setLimit] rewrites only the cap: [used_today] and
    [reset_date] stay as they were, even on a row last reset on an earlier
    day, and the status it returns reports that row. *)
Theorem setLimit_keeps_counter (w n : Z) (s : St) (r0 : SpendingLimit.t) :
  faults s = [] -> 0 <= n -> find_limit w (db s) = Some r0 ->
  fst (setLimit w n s) =
    Ok (mkLimitStatus n (SpendingLimit.used_today r0) (n - SpendingLimit.used_today r0)
          (SpendingLimit.reset_date r0)) /\
  exists r, find_limit w (db (snd (setLimit w n s))) = Some r /\
    SpendingLimit.daily_limit r = n /\
    SpendingLimit.used_today r = SpendingLimit.used_today r0 /\
    SpendingLimit.reset_date r = SpendingLimit.reset_date r0.
Proof.
  intros Hf Hn E.
  destruct (setLimit_spec w n s Hf Hn) as (r & Hfind & Hres & Hl & _ & _ & Hm).
  rewrite E in Hm; destruct Hm as [Hu Hd].
  split.
  - rewrite Hres; unfold limit_status_of; rewrite Hl, Hu, Hd; reflexivity.
  - exists r; repeat split; assumption.
Qed.

Lemma setLimit_keeps_counter_witness :
  fst (setLimit 1 200 Scenario.s_stale) = Ok (mkLimitStatus 200 50 150 "2026-10-18").
Proof.
  destruct (setLimit_keeps_counter 1 200 Scenario.s_stale
              (Scenario.limit_row 1 100 50 "2026-10-18") eq_refl ltac:(lia) eq_refl)
    as [H _].
  exact H.
Defined.

(** For a wallet without a row, [setLimit] creates one that starts the day
    at zero spent, with the new cap. *)
Theorem setLimit_creates_row (w n : Z) (s : St) :
  faults s = [] -> 0 <= n -> find_limit w (db s) = None ->
  fst (setLimit w n s) = Ok (mkLimitStatus n 0 n (today (env s))) /\
  exists r, find_limit w (db (snd (setLimit w n s))) = Some r /\
    SpendingLimit.daily_limit r = n /\ SpendingLimit.used_today r = 0 /\
    SpendingLimit.reset_date r = today (env s).
Proof.
  intros Hf Hn E.
  destruct (setLimit_spec w n s Hf Hn) as (r & Hfind & Hres & Hl & _ & _ & Hm).
  rewrite E in Hm; destruct Hm as [Hu Hd].
  split.
  - rewrite Hres; unfold limit_status_of; rewrite Hl, Hu, Hd, Z.sub_0_r; reflexivity.
  - exists r; repeat split; assumption.
Qed.

Lemma setLimit_creates_row_witness :
  fst (setLimit 2 300 Scenario.s_80_of_100) = Ok (mkLimitStatus 300 0 300 "2026-10-19").
Proof.
  destruct (setLimit_creates_row 2 300 Scenario.s_80_of_100 eq_refl ltac:(lia) eq_refl)
    as [H _].
  exact H.
Defined.

(** [setLimit] writes only the wallet's own row: other wallets' limits,
    the ledger and the withdrawal requests are left as they were. *)
Theorem setLimit_only_touches_wallet (w w' n : Z) (s : St) :
  faults s = [] -> 0 <= n -> w' <> w ->
  find_limit w' (db (snd (setLimit w n s))) = find_limit w' (db s) /\
  transactions (db (snd (setLimit w n s))) = transactions (db s) /\
  withdrawal_requests (db (snd (setLimit w n s))) = withdrawal_requests (db s).
Proof.
  intros Hf Hn Hne; rewrite (setLimit_state w n s Hf Hn).
  destruct (find_limit w (db s)); unfold set_daily_limit.
  - rewrite find_limit_update_other by (assumption || reflexivity).
    repeat split.
  - rewrite find_limit_update_other by (assumption || reflexivity).
    rewrite find_limit_insert_other by assumption.
    repeat split.
Qed.

Lemma setLimit_only_touches_wallet_witness :
  find_limit 2 (db (snd (setLimit 1 200 Scenario.s_80_of_100))) =
  find_limit 2 (db Scenario.s_80_of_100).
Proof.
  destruct (setLimit_only_touches_wallet 1 2 200 Scenario.s_80_of_100
              eq_refl ltac:(lia) ltac:(lia)) as [H _].
  exact H.
Defined.

(** A check after [setLimit] compares against the new cap minus what the
    wallet has spent today; for a row last reset on an earlier day that is
    the whole cap, although [setLimit] itself reported the old counter. *)
Theorem setLimit_then_canSpend (w n amount : Z) (s : St) :
  faults s = [] -> 0 <= n ->
  fst (canSpend w amount (snd (setLimit w n s))) =
  Ok (mkCheck (amount <=? n - effective_used (env s) w (db s))
              (n - effective_used (env s) w (db s))) /\
  (forall r0, find_limit w (db s) = Some r0 ->
   fst (setLimit w n s) =
   Ok (mkLimitStatus n (SpendingLimit.used_today r0) (n - SpendingLimit.used_today r0)
                     (SpendingLimit.reset_date r0))).
Proof.
  intros Hf Hn.
  destruct (setLimit_spec w n s Hf Hn) as (r & Hfind & Hst & Hl & He & Hf' & Hm).
  split.
  2:{ intros r0 Hr0; rewrite Hr0 in Hm; destruct Hm as [Hu Hd].
      rewrite Hst; unfold limit_status_of; rewrite Hl, Hu, Hd; reflexivity. }
  unfold canSpend; rewrite (checkSpendingAllowed_spec w amount _ Hf'); cbn [fst].
  rewrite He.
  assert (HL : effective_limit (env s) w (db (snd (setLimit w n s))) = n)
    by (unfold effective_limit; rewrite Hfind; exact Hl).
  assert (HU : effective_used (env s) w (db (snd (setLimit w n s))) =
               effective_used (env s) w (db s)).
  { unfold effective_used at 1; rewrite Hfind.
    unfold effective_used; destruct (find_limit w (db s)) as [r0|];
      destruct Hm as [Hu Hd]; rewrite Hu, Hd; [reflexivity|].
    rewrite String.eqb_refl; reflexivity. }
  rewrite HL, HU; reflexivity.
Qed.

Lemma setLimit_then_canSpend_witness :
  fst (canSpend 1 180 (snd (setLimit 1 200 Scenario.s_stale))) = Ok (mkCheck true 200) /\
  fst (setLimit 1 200 Scenario.s_stale) = Ok (mkLimitStatus 200 50 150 "2026-10-18").
Proof.
  destruct (setLimit_then_canSpend 1 200 180 Scenario.s_stale eq_refl ltac:(lia)) as [H1 H2].
  split.
  - rewrite H1; vm_compute; reflexivity.
  - exact (H2 (Scenario.limit_row 1 100 50 "2026-10-18") eq_refl).
Defined.

(** [getLimitStatus] and [canSpend] read the same row after the same
    rollover: the status's [remaining] is the check's [remaining], and both
    leave the same database. *)
Theorem getLimitStatus_matches_canSpend (w amount : Z) (s : St) :
  faults s = [] ->
  snd (getLimitStatus w s) = snd (canSpend w amount s) /\
  exists st ck, fst (getLimitStatus w s) = Ok st /\ fst (canSpend w amount s) = Ok ck /\
    ls_remaining st = remaining ck /\ ls_remaining st = dailyLimit st - usedToday st /\
    allowed ck = (amount <=? ls_remaining st).
Proof.
  intros Hf; unfold canSpend.
  rewrite (getLimitStatus_spec w s Hf), (checkSpendingAllowed_spec w amount s Hf).
  split; [reflexivity|].
  do 2 eexists; repeat split.
Qed.

Lemma getLimitStatus_matches_canSpend_witness :
  snd (getLimitStatus 1 Scenario.s_stale) = snd (canSpend 1 30 Scenario.s_stale).
Proof. apply (getLimitStatus_matches_canSpend 1 30 Scenario.s_stale eq_refl). Defined.

(** * Transfers: the unit of work and the orchestrator's paths *)

Lemma try_catch_ok {A} (m : M A) h s a s' :
  m s = (Ok a, s') -> try_catch m h s = (Ok a, s').
Proof. intros H; unfold try_catch; rewrite H; reflexivity. Qed.

Lemma effective_used_add_rolled e w x d :
  effective_used e w (add_used w x (now e) (rolled e w d)) = effective_used e w d + x.
Proof.
  destruct (recordSpending_spec w x (mkSt d e []) eq_refl) as (r & Hr & _).
  destruct (recordSpending_effective w x (mkSt d e []) eq_refl) as (_ & _ & Hu & _).
  rewrite Hr in Hu; exact Hu.
Qed.

Lemma lift_result_ok {A} (r : result A) a s : r = Ok a -> lift_result r s = (Ok a, s).
Proof. intros ->; reflexivity. Qed.

(** Once the transaction has ended, the callback's statements behave as
    they do outside any transaction. *)
Lemma createTransaction_closed fromWalletId amount txType o s :
  createTransaction fromWalletId amount txType o (mkTxSt s None) =
  (fst (createTransaction fromWalletId amount txType o s),
   mkTxSt (snd (createTransaction fromWalletId amount txType o s)) None).
Proof.
  unfold createTransaction, bind, get_env, execute, query, deref, ret, throw;
    cbn [conn_execute conn_db conn_env Connection_St Connection_TxSt tx_st tx_begin].
  unfold execute_in_tx; cbn [tx_st tx_begin].
  destruct (run_and_save _ s) as [[u|e] s1]; [|reflexivity].
  destruct (latest_tx _ _ _ _); reflexivity.
Qed.

Lemma updateTransactionStatus_closed i status o s :
  updateTransactionStatus i status o (mkTxSt s None) =
  (fst (updateTransactionStatus i status o s),
   mkTxSt (snd (updateTransactionStatus i status o s)) None).
Proof.
  destruct status;
    unfold updateTransactionStatus, bind, get_env, execute, query, deref, ret, throw;
    cbn [conn_execute conn_db conn_env Connection_St Connection_TxSt tx_st tx_begin];
    unfold execute_in_tx; cbn [tx_st tx_begin];
    (destruct (run_and_save _ s) as [[u|e] s1]; [|reflexivity]);
    cbn [tx_st]; destruct (find_tx _ _); reflexivity.
Qed.

(** [recordSpending] as the first statement of [runTransaction]'s
    callback, on a wallet that has a spending-limit row: its first write
    is undone by [saveDb] and ends the transaction. On a row reset today
    that write is the spend itself; on a stale row it is the rollover, and
    the spend then lands on the stale counter. *)
Lemma recordSpending_in_tx w x s r :
  faults s = [] ->
  find_limit w (db s) = Some r ->
  exists r', recordSpending w x (mkTxSt s (Some (db s))) =
             (Ok r', mkTxSt (set_db s (spent_in_tx (env s) w x r (db s))) None).
Proof.
  destruct s as [d e f]; cbn [db env faults]; intros -> Hr.
  unfold recordSpending, getOrCreateSpendingLimit, bind, get_env, execute, query, deref,
    ret, throw;
    cbn [conn_execute conn_db conn_env Connection_St Connection_TxSt tx_st tx_begin].
  cbn [db env faults]; rewrite Hr.
  unfold spent_in_tx; cbn [env db].
  destruct (String.eqb (SpendingLimit.reset_date r) (today e)) eqn:Et;
    cbn [negb].
  - unfold execute_in_tx, run_and_save; cbn [tx_st tx_begin faults db env set_db].
    rewrite Hr; eexists; reflexivity.
  - unfold execute_in_tx, run_and_save; cbn [tx_st tx_begin faults db env set_db].
    rewrite Hr.
    cbn [tx_st tx_begin faults db env set_db].
    unfold add_used; rewrite find_limit_update by reflexivity; rewrite Hr.
    eexists; reflexivity.
Qed.


(** Without storage failures and with a spending-limit row for the
    sender, [executeTransfer] inserts and confirms a new row, keeps it
    although the transaction fails, and throws the ROLLBACK's error. *)
Lemma executeTransfer_spec f t a sig fee s r :
  faults s = [] ->
  find_limit f (db s) = Some r ->
  let e := env s in
  let d1 := spent_in_tx e f (a + fee) r (db s) in
  let i := next_id Transaction.id (seq_transactions (db s)) (transactions (db s)) in
  let o := mkCreateOptions (Some t) None (Some fee) (Some sig) in
  let ptx := Transaction.mk i f (z_or_null (Some t)) (str_or_null None) a "USDC"
               (z_or_zero (Some fee)) (str_or_null (Some sig)) TxTransfer
               Pending None (now e) None in
  let g := transitioned e Confirmed (mkStatusOptions (Some sig) None) in
  executeTransfer f t a sig fee s =
    (Err cannot_rollback, set_db s (update_txs i g (insert_tx f a TxTransfer o (now e) d1))) /\
  find_tx i (update_txs i g (insert_tx f a TxTransfer o (now e) d1)) = Some (g ptx).
Proof.
  intros Hf Hr e d1 i o ptx g.
  destruct (recordSpending_in_tx f (a + fee) s r Hf Hr) as (r' & Hrec).
  fold e d1 in Hrec.
  set (s1 := set_db s d1) in Hrec.
  assert (Hf1 : faults s1 = []) by exact Hf.
  assert (Ht1 : transactions d1 = transactions (db s) /\
                seq_transactions d1 = seq_transactions (db s))
    by (unfold d1, spent_in_tx; destruct (String.eqb _ _); split; reflexivity).
  destruct Ht1 as [Ht1 Hseq1].
  destruct (createTransaction_spec f a TxTransfer o s1 Hf1) as [Hc Hfind].
  cbn [db env s1 set_db] in Hc, Hfind.
  rewrite Ht1, Hseq1 in Hc, Hfind; fold i in Hc, Hfind.
  fold e in Hc, Hfind; fold ptx in Hc, Hfind.
  set (s2 := set_db s1 (insert_tx f a TxTransfer o (now e) d1)) in Hc.
  assert (Hfind2 : find_tx i (db s2) = Some ptx) by exact Hfind.
  pose proof (updateTransactionStatus_spec i Confirmed (mkStatusOptions (Some sig) None)
                s2 ptx Hf Hfind2) as Hu.
  split.
  - unfold executeTransfer, runTransaction.
    rewrite (bind_ok _ _ _ _ _ Hrec).
    assert (Hc' : createTransaction f a TxTransfer o (mkTxSt s1 None) = (Ok ptx, mkTxSt s2 None))
      by (rewrite createTransaction_closed, Hc; reflexivity).
    rewrite (bind_ok _ _ _ _ _ Hc'); cbn [Transaction.id ptx].
    rewrite updateTransactionStatus_closed, Hu; cbn [fst snd].
    unfold commit, rollback; cbn [tx_st tx_begin faults s2 s1 set_db].
    rewrite Hf; reflexivity.
  - rewrite find_tx_update by reflexivity; rewrite Hfind; reflexivity.
Qed.

Lemma find_tx_update_other i j f d :
  (forall r, Transaction.id (f r) = Transaction.id r) -> i <> j ->
  find_tx i (update_txs j f d) = find_tx i d.
Proof.
  intros Hf Hij; unfold find_tx, update_txs; cbn [transactions].
  rewrite find_map_same.
  - destruct (find _ (transactions d)) as [r|] eqn:E; cbn [option_map]; [|reflexivity].
    apply find_some_true in E; apply Z.eqb_eq in E.
    destruct (Transaction.id r =? j) eqn:Ej; [apply Z.eqb_eq in Ej; lia | reflexivity].
  - intros x; destruct (Transaction.id x =? j); [rewrite Hf|]; reflexivity.
Qed.

Lemma max_id_app {R} (id : R -> Z) (l : list R) (x : R) :
  max_id id (l ++ [x]) = Z.max (max_id id l) (Z.max (id x) 0).
Proof.
  unfold max_id; induction l as [|y l IH]; cbn [app fold_right]; [lia|].
  rewrite IH; lia.
Qed.

Lemma max_id_nonneg {R} (id : R -> Z) (l : list R) : 0 <= max_id id l.
Proof. unfold max_id; induction l as [|y l IH]; cbn; lia. Qed.

Lemma next_id_insert_tx fromWalletId amount txType o n d :
  let d' := insert_tx fromWalletId amount txType o n d in
  next_id Transaction.id (seq_transactions d') (transactions d') =
  next_id Transaction.id (seq_transactions d) (transactions d) + 1.
Proof.
  cbv zeta; unfold insert_tx; cbn [transactions seq_transactions].
  set (i := next_id Transaction.id (seq_transactions d) (transactions d)).
  assert (Hi : max_id Transaction.id (transactions d) < i /\ 0 < i)
    by (pose proof (max_id_nonneg Transaction.id (transactions d));
        unfold i, next_id; lia).
  unfold next_id at 1; rewrite max_id_app; cbn [Transaction.id]; lia.
Qed.

Lemma find_tx_insert_other i fromWalletId amount txType o n d :
  i <> next_id Transaction.id (seq_transactions d) (transactions d) ->
  find_tx i (insert_tx fromWalletId amount txType o n d) = find_tx i d.
Proof.
  intros Hi; unfold find_tx, insert_tx; cbn [transactions].
  apply find_app_single_false; cbn [Transaction.id].
  apply Z.eqb_neq; intros H; apply Hi; symmetry; exact H.
Qed.

(** [executeTransfer] never returns. With no storage failure and a
    spending-limit row for the sender, its first write ends the
    transaction ([saveDb]'s export rolls it back), so COMMIT and then
    ROLLBACK find none and it throws "cannot rollback - no transaction is
    active". The row it inserted stays, confirmed with the signature, the
    recipient and the fee; on a row reset today the spend is lost and the
    spending-limit table is unchanged. *)
Theorem executeTransfer_always_throws (f t a : Z) (sig : string) (fee : Z) (s : St)
    (r : SpendingLimit.t) :
  faults s = [] ->
  find_limit f (db s) = Some r ->
  let i := next_id Transaction.id (seq_transactions (db s)) (transactions (db s)) in
  let s' := snd (executeTransfer f t a sig fee s) in
  fst (executeTransfer f t a sig fee s) = Err cannot_rollback /\
  (exists tx, find_tx i (db s') = Some tx /\
     Transaction.status tx = Confirmed /\
     Transaction.tx_signature tx = str_or_null (Some sig) /\
     Transaction.from_wallet_id tx = f /\ Transaction.to_wallet_id tx = z_or_null (Some t) /\
     Transaction.amount tx = a /\ Transaction.fee tx = fee) /\
  (SpendingLimit.reset_date r = today (env s) ->
   spending_limits (db s') = spending_limits (db s)).
Proof.
  intros Hf Hr i s'.
  destruct (executeTransfer_spec f t a sig fee s r Hf Hr) as [He Hfind].
  unfold s'; rewrite He; cbn [fst snd db set_db].
  split; [reflexivity|]; split.
  - eexists; split; [exact Hfind|].
    repeat split; cbn; try reflexivity.
    destruct sig; reflexivity.
  - intros Hd; unfold spent_in_tx; rewrite Hd, String.eqb_refl; reflexivity.
Qed.

Lemma executeTransfer_always_throws_witness :
  let s := mkSt (mkDB [] [Scenario.limit_row 1 100 20 "2026-10-19"] [] 0 1 0)
             Scenario.env0 [] in
  fst (executeTransfer 1 2 10 "sig123" 1 s) = Err cannot_rollback /\
  spending_limits (db (snd (executeTransfer 1 2 10 "sig123" 1 s))) = spending_limits (db s).
Proof.
  intros s.
  destruct (executeTransfer_always_throws 1 2 10 "sig123" 1 s
              (Scenario.limit_row 1 100 20 "2026-10-19") eq_refl eq_refl)
    as (H1 & _ & H3).
  split; [exact H1 | apply H3; reflexivity].
Defined.

(** [executeTransfer] never changes the sender's effective used_today or
    cap. On a row reset today the spend write is undone. On a stale row
    the rollover is undone and the spend is added to the stale counter,
    which keeps its old reset_date, so the next rollover discards it. *)
Theorem executeTransfer_spend_not_counted (f t a : Z) (sig : string) (fee : Z) (s : St)
    (r : SpendingLimit.t) :
  faults s = [] ->
  find_limit f (db s) = Some r ->
  let s' := snd (executeTransfer f t a sig fee s) in
  effective_used (env s) f (db s') = effective_used (env s) f (db s) /\
  effective_limit (env s) f (db s') = effective_limit (env s) f (db s) /\
  (SpendingLimit.reset_date r <> today (env s) ->
   option_map SpendingLimit.used_today (find_limit f (db s')) =
   Some (SpendingLimit.used_today r + (a + fee)) /\
   option_map SpendingLimit.reset_date (find_limit f (db s')) =
   Some (SpendingLimit.reset_date r)).
Proof.
  intros Hf Hr s'.
  destruct (executeTransfer_spec f t a sig fee s r Hf Hr) as [He _].
  unfold s'; rewrite He; cbn [snd db set_db].
  set (d1 := spent_in_tx _ _ _ _ _).
  set (dd := update_txs _ _ _).
  assert (Hl : spending_limits dd = spending_limits d1) by reflexivity.
  assert (Hfl : find_limit f dd = find_limit f d1)
    by (unfold find_limit; rewrite Hl; reflexivity).
  unfold effective_used, effective_limit; rewrite Hfl.
  unfold d1, spent_in_tx.
  destruct (String.eqb (SpendingLimit.reset_date r) (today (env s))) eqn:Et.
  - split; [reflexivity|]; split; [reflexivity|].
    intros Hn; apply String.eqb_eq in Et; contradiction.
  - unfold add_used; rewrite find_limit_update by reflexivity; rewrite Hr; cbn.
    rewrite Et; split; [reflexivity|]; split; [reflexivity|]; split; reflexivity.
Qed.

Lemma executeTransfer_spend_not_counted_witness :
  let s := mkSt (mkDB [] [Scenario.limit_row 1 100 50 "2026-10-18"] [] 0 1 0)
             Scenario.env0 [] in
  effective_used (env s) 1 (db (snd (executeTransfer 1 2 10 "sig123" 1 s))) = 0 /\
  option_map SpendingLimit.used_today
    (find_limit 1 (db (snd (executeTransfer 1 2 10 "sig123" 1 s)))) = Some 61.
Proof.
  intros s.
  destruct (executeTransfer_spend_not_counted 1 2 10 "sig123" 1 s
              (Scenario.limit_row 1 100 50 "2026-10-18") eq_refl eq_refl)
    as (H1 & _ & H3).
  split; [rewrite H1; reflexivity | apply H3; discriminate].
Defined.

(** An internal [transfer] whose settlement succeeds (no storage failure,
    within the limit, a whole fee) reports failure with the ROLLBACK's
    error, although the payment went out. The pending row it created is
    marked failed with that message, the row [executeTransfer] added next
    to it is confirmed with the settlement reference, and the sender's
    effective used_today is what it was. *)
Theorem transfer_settled_reported_failed (fromW toW : Wallet.t) (amount : Z) (net : Net)
    (sig : string) (s : St) :
  faults s = [] ->
  amount <= effective_limit (env s) (Wallet.id fromW) (db s)
            - effective_used (env s) (Wallet.id fromW) (db s) ->
  has_enough_usdc net = true ->
  (amount * platform_fee_percent (env s)) mod 100 = 0 ->
  transfer_usdc net (Wallet.public_key toW)
    (amount - amount * platform_fee_percent (env s) / 100) = Ok sig ->
  let i := next_id Transaction.id (seq_transactions (db s)) (transactions (db s)) in
  let s' := snd (transfer fromW toW amount net s) in
  fst (transfer fromW toW amount net s) =
    Ok (declined "cannot rollback - no transaction is active") /\
  (exists p, find_tx i (db s') = Some p /\
     Transaction.status p = Failed /\
     Transaction.error_message p = Some "cannot rollback - no transaction is active" /\
     Transaction.tx_signature p = None /\
     Transaction.amount p = amount /\
     Transaction.fee p * 100 = amount * platform_fee_percent (env s)) /\
  (exists c, find_tx (i + 1) (db s') = Some c /\
     Transaction.status c = Confirmed /\
     Transaction.tx_signature c = str_or_null (Some sig) /\
     Transaction.from_wallet_id c = Wallet.id fromW /\
     Transaction.amount c = amount /\
     Transaction.fee c * 100 = amount * platform_fee_percent (env s)) /\
  List.length (transactions (db s')) = (List.length (transactions (db s)) + 2)%nat /\
  effective_used (env s) (Wallet.id fromW) (db s') =
  effective_used (env s) (Wallet.id fromW) (db s).
Proof.
  intros Hf Hallow Hbal Hdiv Hsub i s'.
  set (w := Wallet.id fromW) in *.
  set (fee := amount * platform_fee_percent (env s) / 100) in Hsub.
  assert (Hfee : fee * 100 = amount * platform_fee_percent (env s)).
  { unfold fee; pose proof (proj2 (Z.div_exact (amount * platform_fee_percent (env s)) 100
                                    ltac:(lia)) Hdiv); lia. }
  set (s1 := set_db s (rolled (env s) w (db s))).
  assert (Hf1 : faults s1 = []) by exact Hf.
  destruct (getOrCreate_spec w s Hf) as (r & _ & Hlim & _ & _ & Hdate).
  destruct (rolled_tables (env s) w (db s)) as [Ht Hseq].
  set (o := mkCreateOptions (Some (Wallet.id toW)) None (Some fee) None).
  destruct (createTransaction_spec w amount TxTransfer o s1 Hf1) as [Hc Hfind].
  set (s2 := set_db s1 (insert_tx w amount TxTransfer o (now (env s1)) (db s1))) in Hc.
  assert (Hf2 : faults s2 = []) by exact Hf.
  cbn [db env s1 set_db] in Hfind.
  rewrite Ht, Hseq in Hfind; fold i in Hfind.
  cbn [db s1 set_db] in Hc; rewrite Ht, Hseq in Hc; fold i in Hc.
  set (ptx := Transaction.mk i _ _ _ _ _ _ _ _ _ _ _ _) in Hc, Hfind.
  assert (Hfind2 : find_tx i (db s2) = Some ptx) by exact Hfind.
  assert (Hlim2 : find_limit w (db s2) = Some r) by exact Hlim.
  destruct (executeTransfer_spec w (Wallet.id toW) amount sig fee s2 r Hf2 Hlim2) as [He Hfind3].
  assert (Hsp : spent_in_tx (env s2) w (amount + fee) r (db s2) = db s2)
    by (unfold spent_in_tx; cbn [env s2 s1 set_db]; rewrite Hdate, String.eqb_refl; reflexivity).
  rewrite Hsp in He, Hfind3.
  assert (Hi2 : next_id Transaction.id (seq_transactions (db s2)) (transactions (db s2)) = i + 1).
  { unfold s2; cbn [db set_db s1].
    rewrite next_id_insert_tx; cbn [db]; rewrite Ht, Hseq; reflexivity. }
  rewrite Hi2 in He, Hfind3.
  set (g := transitioned (env s2) Confirmed _) in He, Hfind3.
  set (o2 := mkCreateOptions _ _ _ _) in He, Hfind3.
  set (s3 := set_db s2 _) in He.
  assert (Hfind4 : find_tx i (db s3) = Some ptx).
  { unfold s3; cbn [db set_db].
    rewrite find_tx_update_other by (reflexivity || lia).
    rewrite find_tx_insert_other by (rewrite Hi2; lia).
    exact Hfind2. }
  assert (Hf3 : faults s3 = []) by exact Hf.
  set (msg := "cannot rollback - no transaction is active").
  pose proof (updateTransactionStatus_spec i Failed (mkStatusOptions None (Some msg))
                s3 ptx Hf3 Hfind4) as Hu.
  assert (Hrun : transfer fromW toW amount net s =
            (Ok (declined msg),
             set_db s3 (update_txs i (transitioned (env s3) Failed
                          (mkStatusOptions None (Some msg))) (db s3)))).
  { unfold transfer.
    rewrite (bind_ok _ _ _ _ _ (checkSpendingAllowed_spec w amount s Hf)).
    cbn [allowed].
    rewrite (proj2 (Z.leb_le _ _) Hallow), Hbal; cbn [negb].
    rewrite (bind_ok get_env _ s1 (env s) s1 (get_env_St s1)); cbv zeta.
    rewrite (bind_ok _ _ _ _ _ Hc).
    rewrite (try_catch_err _ _ _ cannot_rollback s3).
    - rewrite (bind_ok _ _ _ _ _ Hu); reflexivity.
    - rewrite (bind_ok _ _ _ _ _ (lift_result_ok _ sig s2 Hsub)).
      fold fee w; unfold bind; rewrite He; reflexivity. }
  unfold s'; rewrite Hrun; cbn [fst snd db set_db].
  split; [reflexivity|]; split; [|split; [|split]].
  - rewrite find_tx_update by reflexivity; rewrite Hfind4; cbn [option_map].
    eexists; split; [reflexivity|]; cbn; repeat split; exact Hfee.
  - rewrite find_tx_update_other by (reflexivity || lia).
    unfold s3; cbn [db set_db]; rewrite Hfind3.
    eexists; split; [reflexivity|]; cbn; repeat split; [destruct sig; reflexivity | exact Hfee].
  - unfold s3, s2, s1; cbn [db set_db update_txs insert_tx transactions].
    rewrite !length_map, !length_app, Ht; cbn [Datatypes.length]; lia.
  - rewrite (effective_used_limits (env s) w _ (rolled (env s) w (db s))) by reflexivity.
    apply rolled_effective.
Qed.

Lemma transfer_settled_reported_failed_witness :
  let s := mkSt (mkDB [] [Scenario.limit_row 1 1000 0 "2026-10-19"] [] 0 1 0)
             Scenario.env0 [] in
  fst (transfer Scenario.alice Scenario.bob 100 Scenario.net_ok s) =
    Ok (declined "cannot rollback - no transaction is active") /\
  effective_used (env s) 1 (db (snd (transfer Scenario.alice Scenario.bob 100
                                       Scenario.net_ok s))) = 0.
Proof.
  intros s.
  destruct (transfer_settled_reported_failed Scenario.alice Scenario.bob 100 Scenario.net_ok
              "sig123" s eq_refl ltac:(vm_compute; discriminate) eq_refl eq_refl eq_refl)
    as (H1 & _ & _ & _ & H5).
  split; [exact H1 | exact (eq_trans H5 eq_refl)].
Defined.

(** A successful external transfer confirms the pending row it created,
    with the signature, and books the amount alone on the sender's counter. *)
Theorem transferExternal_success_confirms_pending (fromW : Wallet.t) (toAddress : string)
    (amount : Z) (net : Net) (sig : string) (s : St) :
  faults s = [] ->
  valid_address net toAddress = true ->
  amount <= effective_limit (env s) (Wallet.id fromW) (db s)
            - effective_used (env s) (Wallet.id fromW) (db s) ->
  has_enough_usdc net = true ->
  transfer_usdc net toAddress amount = Ok sig ->
  let i := next_id Transaction.id (seq_transactions (db s)) (transactions (db s)) in
  let s' := snd (transferExternal fromW toAddress amount net s) in
  (exists tx,
     fst (transferExternal fromW toAddress amount net s) =
       Ok (mkTransferResult true (Some tx) (Some sig)
             (Some (getExplorerUrl sig (solana_network (env s)))) None) /\
     find_tx i (db s') = Some tx /\
     Transaction.status tx = Confirmed /\
     Transaction.tx_signature tx = str_or_null (Some sig) /\
     Transaction.to_external_address tx = str_or_null (Some toAddress) /\
     Transaction.amount tx = amount /\ Transaction.fee tx = 0) /\
  effective_used (env s) (Wallet.id fromW) (db s') =
  effective_used (env s) (Wallet.id fromW) (db s) + amount.
Proof.
  intros Hf Hval Hallow Hbal Hsub i s'.
  set (w := Wallet.id fromW) in *.
  set (s1 := set_db s (rolled (env s) w (db s))).
  assert (Hf1 : faults s1 = []) by exact Hf.
  destruct (rolled_tables (env s) w (db s)) as [Ht Hseq].
  set (o := mkCreateOptions None (Some toAddress) None None).
  destruct (createTransaction_spec w amount TxTransfer o s1 Hf1) as [Hc Hfind].
  cbn [db env s1 set_db] in Hfind, Hc.
  rewrite Ht, Hseq in Hfind, Hc; fold i in Hfind, Hc.
  set (ptx := Transaction.mk i _ _ _ _ _ _ _ _ _ _ _ _) in Hc, Hfind.
  set (s2 := set_db s1 (insert_tx w amount TxTransfer o (now (env s)) _)) in Hc.
  assert (Hf2 : faults s2 = []) by exact Hf.
  destruct (recordSpending_spec w amount s2 Hf2) as (r & Hr & _).
  set (s3 := set_db s2 _) in Hr.
  assert (Hf3 : faults s3 = []) by exact Hf.
  assert (Hfind3 : find_tx i (db s3) = Some ptx).
  { unfold s3; cbn [db set_db].
    destruct (rolled_tables (env s2) w (db s2)) as [Ht2 _].
    unfold find_tx; cbn [transactions add_used update_limits]; rewrite Ht2; exact Hfind. }
  pose proof (updateTransactionStatus_spec i Confirmed (mkStatusOptions (Some sig) None)
                s3 ptx Hf3 Hfind3) as Hu.
  assert (Hrun : transferExternal fromW toAddress amount net s =
            (Ok (mkTransferResult true
                   (Some (transitioned (env s3) Confirmed (mkStatusOptions (Some sig) None) ptx))
                   (Some sig) (Some (getExplorerUrl sig (solana_network (env s)))) None),
             set_db s3 (update_txs i (transitioned (env s3) Confirmed
                                        (mkStatusOptions (Some sig) None)) (db s3)))).
  { unfold transferExternal; rewrite Hval; cbn [negb].
    rewrite (bind_ok _ _ _ _ _ (checkSpendingAllowed_spec w amount s Hf)).
    cbn [allowed].
    rewrite (proj2 (Z.leb_le _ _) Hallow), Hbal; cbn [negb].
    rewrite (bind_ok get_env _ s1 (env s) s1 (get_env_St s1)).
    rewrite (bind_ok _ _ _ _ _ Hc).
    apply try_catch_ok.
    rewrite (bind_ok _ _ _ _ _ (lift_result_ok _ sig s2 Hsub)).
    rewrite (bind_ok _ _ _ _ _ Hr).
    cbn [Transaction.id ptx].
    rewrite (bind_ok _ _ _ _ _ Hu); reflexivity. }
  unfold s'; rewrite Hrun; cbn [fst snd].
  split.
  - eexists; split; [reflexivity|]; split.
    + cbn [db set_db]; rewrite find_tx_update by reflexivity; rewrite Hfind3; reflexivity.
    + repeat split; cbn; destruct sig; reflexivity.
  - cbn [db set_db].
    rewrite (effective_used_limits (env s) w _
               (add_used w amount (now (env s)) (rolled (env s) w (db s2))))
      by reflexivity.
    rewrite effective_used_add_rolled.
    rewrite (effective_used_limits (env s) w (db s2) (rolled (env s) w (db s)))
      by reflexivity.
    rewrite (proj1 (rolled_effective _ _ _)); reflexivity.
Qed.

Lemma transferExternal_success_confirms_pending_witness :
  effective_used Scenario.env0 1
    (db (snd (transferExternal Scenario.alice Scenario.outside 15 Scenario.net_ok
                Scenario.s_80_of_100))) = 95.
Proof.
  destruct (transferExternal_success_confirms_pending Scenario.alice Scenario.outside 15
              Scenario.net_ok "sig123" Scenario.s_80_of_100 eq_refl eq_refl
              ltac:(vm_compute; discriminate) eq_refl eq_refl) as [_ Hu].
  exact (eq_trans Hu eq_refl).
Defined.

(** Over the limit, both transfer paths decline with the remaining amount
    in the message; the only write is the counter's rollover, and no
    transaction row is created. *)
Theorem transfers_decline_over_limit (fromW toW : Wallet.t) (toAddress : string)
    (amount : Z) (net : Net) (s : St) :
  faults s = [] ->
  valid_address net toAddress = true ->
  let rem := effective_limit (env s) (Wallet.id fromW) (db s)
             - effective_used (env s) (Wallet.id fromW) (db s) in
  rem < amount ->
  transfer fromW toW amount net s =
    (Ok (declined (limit_exceeded_message rem)),
     set_db s (rolled (env s) (Wallet.id fromW) (db s))) /\
  transferExternal fromW toAddress amount net s =
    (Ok (declined (limit_exceeded_message rem)),
     set_db s (rolled (env s) (Wallet.id fromW) (db s))) /\
  transactions (rolled (env s) (Wallet.id fromW) (db s)) = transactions (db s).
Proof.
  intros Hf Hval rem Hover.
  split; [|split; [|apply rolled_tables]].
  - unfold transfer.
    rewrite (bind_ok _ _ _ _ _ (checkSpendingAllowed_spec _ amount s Hf)); cbn [allowed].
    fold rem; rewrite (proj2 (Z.leb_gt _ _) Hover); reflexivity.
  - unfold transferExternal; rewrite Hval; cbn [negb].
    rewrite (bind_ok _ _ _ _ _ (checkSpendingAllowed_spec _ amount s Hf)); cbn [allowed].
    fold rem; rewrite (proj2 (Z.leb_gt _ _) Hover); reflexivity.
Qed.

Lemma transfers_decline_over_limit_witness :
  fst (transfer Scenario.alice Scenario.bob 25 Scenario.net_ok Scenario.s_80_of_100) =
  Ok (declined (limit_exceeded_message 20)).
Proof.
  destruct (transfers_decline_over_limit Scenario.alice Scenario.bob Scenario.outside 25
              Scenario.net_ok Scenario.s_80_of_100 eq_refl eq_refl
              ltac:(vm_compute; reflexivity)) as [H _].
  rewrite H; reflexivity.
Defined.

(** Within the limit but without the balance, both transfer paths decline;
    again only the rollover is written. *)
Theorem transfers_decline_insufficient_balance (fromW toW : Wallet.t) (toAddress : string)
    (amount : Z) (net : Net) (s : St) :
  faults s = [] ->
  valid_address net toAddress = true ->
  amount <= effective_limit (env s) (Wallet.id fromW) (db s)
            - effective_used (env s) (Wallet.id fromW) (db s) ->
  has_enough_usdc net = false ->
  transfer fromW toW amount net s =
    (Ok (declined "Insufficient USDC balance"),
     set_db s (rolled (env s) (Wallet.id fromW) (db s))) /\
  transferExternal fromW toAddress amount net s =
    (Ok (declined "Insufficient USDC balance"),
     set_db s (rolled (env s) (Wallet.id fromW) (db s))).
Proof.
  intros Hf Hval Hallow Hbal; split.
  - unfold transfer.
    rewrite (bind_ok _ _ _ _ _ (checkSpendingAllowed_spec _ amount s Hf)); cbn [allowed].
    rewrite (proj2 (Z.leb_le _ _) Hallow), Hbal; reflexivity.
  - unfold transferExternal; rewrite Hval; cbn [negb].
    rewrite (bind_ok _ _ _ _ _ (checkSpendingAllowed_spec _ amount s Hf)); cbn [allowed].
    rewrite (proj2 (Z.leb_le _ _) Hallow), Hbal; reflexivity.
Qed.

Lemma transfers_decline_insufficient_balance_witness :
  fst (transferExternal Scenario.alice Scenario.outside 10
         (mkNet false (fun _ => true) (fun _ _ => Ok "sig123")) Scenario.s_80_of_100) =
  Ok (declined "Insufficient USDC balance").
Proof.
  destruct (transfers_decline_insufficient_balance Scenario.alice Scenario.bob
              Scenario.outside 10 (mkNet false (fun _ => true) (fun _ _ => Ok "sig123"))
              Scenario.s_80_of_100 eq_refl eq_refl ltac:(vm_compute; discriminate) eq_refl)
    as [_ H].
  rewrite H; reflexivity.
Defined.

(** An address the key parser rejects ends [transferExternal] before any
    read or write: the state is returned unchanged, for any failure
    pattern of the store. *)
Theorem transferExternal_invalid_address_untouched (fromW : Wallet.t) (toAddress : string)
    (amount : Z) (net : Net) (s : St) :
  valid_address net toAddress = false ->
  transferExternal fromW toAddress amount net s =
  (Ok (declined "Invalid Solana address"), s).
Proof. intros Hval; unfold transferExternal; rewrite Hval; reflexivity. Qed.

Lemma transferExternal_invalid_address_untouched_witness :
  transferExternal Scenario.alice "not-a-key" 10
    (mkNet true (fun a => negb (String.eqb a "not-a-key")) (fun _ _ => Ok "sig123"))
    Scenario.s_confirm_fails =
  (Ok (declined "Invalid Solana address"), Scenario.s_confirm_fails).
Proof. apply transferExternal_invalid_address_untouched; reflexivity. Defined.

(** * Withdrawal requests *)

Lemma find_wr_fresh (l : list WithdrawalRequest.t) (i : Z) :
  (forall y, In y l -> WithdrawalRequest.id y < i) ->
  find (fun r => WithdrawalRequest.id r =? i) l = None.
Proof.
  induction l as [|y l IH]; intros Hl; simpl; [reflexivity|].
  assert (Hy : WithdrawalRequest.id y < i) by (apply Hl; left; reflexivity).
  destruct (WithdrawalRequest.id y =? i) eqn:E; [apply Z.eqb_eq in E; lia|].
  apply IH; intros z Hz; apply Hl; right; exact Hz.
Qed.

Lemma set_processing_app T SL l x a b c i sid :
  (forall y, In y l -> WithdrawalRequest.id y < i) -> WithdrawalRequest.id x = i ->
  set_processing i sid (mkDB T SL (l ++ [x]) a b c) =
  mkDB T SL (l ++ [processing_row sid x]) a b c.
Proof.
  intros Hl Hx; unfold set_processing; cbn [transactions spending_limits
    withdrawal_requests seq_transactions seq_spending_limits seq_withdrawal_requests].
  f_equal; rewrite map_app; f_equal.
  - induction l as [|y l IH]; simpl; [reflexivity|].
    assert (Hy : WithdrawalRequest.id y < i) by (apply Hl; left; reflexivity).
    destruct (WithdrawalRequest.id y =? i) eqn:E; [apply Z.eqb_eq in E; lia|].
    f_equal; apply IH; intros z Hz; apply Hl; right; exact Hz.
  - simpl; replace (WithdrawalRequest.id x =? i) with true
      by (rewrite Hx; symmetry; apply Z.eqb_refl); reflexivity.
Qed.

Lemma initiateWithdrawal_spec u w amount nowMs arrival s :
  faults s = [] -> 10 <= amount ->
  let d := db s in
  let i := next_id WithdrawalRequest.id (seq_withdrawal_requests d)
             (withdrawal_requests d) in
  let fee := withdrawal_fee amount in
  let fiat := (amount - fee) * usdc_to_usd_rate in
  let row := WithdrawalRequest.mk i u w amount (Some fiat) "USD"
               (Some ("tr_mock_" ++ z_to_string nowMs)) WProcessing None
               (now (env s)) None in
  initiateWithdrawal u w amount nowMs arrival s =
  (Ok (mkWithdrawalResult true (Some row) (withdrawal_message amount fee fiat)
         (Some arrival)),
   set_db s (mkDB (transactions d) (spending_limits d) (withdrawal_requests d ++ [row])
               (seq_transactions d) (seq_spending_limits d) i)).
Proof.
  destruct s as [d0 e f]; intros Hf Hmin d i fee fiat row.
  cbn [faults] in Hf; subst f.
  assert (Hlt : forall y, In y (withdrawal_requests d0) ->
            WithdrawalRequest.id y <
            next_id WithdrawalRequest.id (seq_withdrawal_requests d0) (withdrawal_requests d0))
    by (intros y Hy; apply below_next_id; exact Hy).
  unfold initiateWithdrawal; rewrite (proj2 (Z.ltb_ge amount 10) Hmin).
  unfold bind, get_env, execute, query, ret, set_db; unfold conn_execute, conn_db, conn_env, Connection_St, run_and_save; cbn [faults db env].
  unfold latest_pending_withdrawal, insert_withdrawal; cbn [withdrawal_requests].
  rewrite filter_app; cbn [filter WithdrawalRequest.user_id WithdrawalRequest.wallet_id
    WithdrawalRequest.amount_usdc WithdrawalRequest.status].
  rewrite !Z.eqb_refl; cbn [andb].
  rewrite max_by_id_last
    by (intros y Hy; apply filter_In in Hy; apply Hlt; apply Hy).
  cbn [WithdrawalRequest.id faults db env].
  rewrite set_processing_app by (assumption || reflexivity).
  unfold find_withdrawal; cbn [withdrawal_requests db].
  rewrite find_app_single by (apply find_wr_fresh; exact Hlt).
  cbn; rewrite Z.eqb_refl; reflexivity.
Qed.

(** Below the $10 minimum [initiateWithdrawal] answers with a refusal and
    writes nothing. *)
Theorem initiateWithdrawal_minimum (u w amount nowMs : Z) (arrival : string) (s : St) :
  amount < 10 ->
  initiateWithdrawal u w amount nowMs arrival s =
  (Ok (mkWithdrawalResult false None "Minimum withdrawal is $10 USDC" None), s).
Proof.
  intros H; unfold initiateWithdrawal; rewrite (proj2 (Z.ltb_lt amount 10) H); reflexivity.
Qed.

Lemma initiateWithdrawal_minimum_witness :
  initiateWithdrawal 1 1 9 1760868000000 "Wednesday, Oct 22" Scenario.s_failed_withdrawal =
  (Ok (mkWithdrawalResult false None "Minimum withdrawal is $10 USDC" None),
   Scenario.s_failed_withdrawal).
Proof. apply initiateWithdrawal_minimum; lia. Defined.

(** From $10 on, [initiateWithdrawal] appends exactly one request, with a
    fresh id, already in [processing] with the mock Stripe id built from
    the clock; earlier requests (even pending ones for the same user,
    wallet and amount), the ledger and the spending limits are untouched,
    and the request returned is the appended row. *)
Theorem initiateWithdrawal_appends_processing (u w amount nowMs : Z) (arrival : string)
    (s : St) :
  faults s = [] -> 10 <= amount -> (amount * 15) mod 1000 = 0 ->
  let i := next_id WithdrawalRequest.id (seq_withdrawal_requests (db s))
             (withdrawal_requests (db s)) in
  let s' := snd (initiateWithdrawal u w amount nowMs arrival s) in
  withdrawal_fee amount * 1000 = amount * 15 /\
  exists row,
    fst (initiateWithdrawal u w amount nowMs arrival s) =
      Ok (mkWithdrawalResult true (Some row)
            (withdrawal_message amount (withdrawal_fee amount)
               ((amount - withdrawal_fee amount) * usdc_to_usd_rate))
            (Some arrival)) /\
    withdrawal_requests (db s') = (withdrawal_requests (db s) ++ [row])%list /\
    WithdrawalRequest.id row = i /\
    WithdrawalRequest.status row = WProcessing /\
    WithdrawalRequest.stripe_transfer_id row = Some ("tr_mock_" ++ z_to_string nowMs) /\
    WithdrawalRequest.user_id row = u /\ WithdrawalRequest.wallet_id row = w /\
    WithdrawalRequest.amount_usdc row = amount /\
    transactions (db s') = transactions (db s) /\
    spending_limits (db s') = spending_limits (db s).
Proof.
  intros Hf Hmin Hexact i s'.
  split.
  { unfold withdrawal_fee; pose proof (Z.div_mod (amount * 15) 1000 ltac:(lia)); lia. }
  unfold s'; rewrite (initiateWithdrawal_spec u w amount nowMs arrival s Hf Hmin).
  eexists; repeat split.
Qed.

Lemma initiateWithdrawal_appends_processing_witness :
  withdrawal_requests
    (db (snd (initiateWithdrawal 1 1 200 1760868000000 "Wednesday, Oct 22"
                Scenario.s_failed_withdrawal))) =
  [Scenario.failed_withdrawal;
   WithdrawalRequest.mk 2 1 1 200 (Some 197) "USD" (Some "tr_mock_1760868000000")
     WProcessing None "2026-10-19 10:00:00" None].
Proof.
  destruct (initiateWithdrawal_appends_processing 1 1 200 1760868000000 "Wednesday, Oct 22"
              Scenario.s_failed_withdrawal eq_refl ltac:(lia) eq_refl)
    as (_ & row & Hres & Hrows & _).
  rewrite Hrows; vm_compute in Hres; injection Hres as <-; reflexivity.
Defined.

Lemma find_withdrawal_appended d0 l row :
  (forall y, In y (withdrawal_requests d0) ->
     WithdrawalRequest.id y < WithdrawalRequest.id row) ->
  withdrawal_requests l = (withdrawal_requests d0 ++ [row])%list ->
  find_withdrawal (WithdrawalRequest.id row) l = Some row.
Proof.
  intros Hlt Hl; unfold find_withdrawal; rewrite Hl.
  rewrite find_app_single by (apply find_wr_fresh; exact Hlt).
  rewrite Z.eqb_refl; reflexivity.
Qed.

(** Round trip of a withdrawal: the request [initiateWithdrawal] returns is
    the one [getWithdrawalStatus] then reads back by its id, and
    [completeWithdrawal] on that id moves it to [completed], stamped with
    the clock, keeping its Stripe id. *)
Theorem withdrawal_lifecycle (u w amount nowMs : Z) (arrival : string) (s : St) :
  faults s = [] -> 10 <= amount ->
  let i := next_id WithdrawalRequest.id (seq_withdrawal_requests (db s))
             (withdrawal_requests (db s)) in
  let s1 := snd (initiateWithdrawal u w amount nowMs arrival s) in
  exists res row,
    fst (initiateWithdrawal u w amount nowMs arrival s) = Ok res /\
    w_request res = Some row /\
    getWithdrawalStatus i s1 = (Ok (Some row), s1) /\
    exists row',
      fst (completeWithdrawal i s1) = Ok (Some row') /\
      WithdrawalRequest.id row' = i /\
      WithdrawalRequest.status row' = WCompleted /\
      WithdrawalRequest.stripe_transfer_id row' = WithdrawalRequest.stripe_transfer_id row /\
      WithdrawalRequest.completed_at row' = Some (now (env s)).
Proof.
  intros Hf Hmin i s1.
  pose proof (initiateWithdrawal_spec u w amount nowMs arrival s Hf Hmin) as Hs.
  cbv zeta in Hs.
  set (row := WithdrawalRequest.mk _ u w amount _ _ _ _ _ _ _) in Hs.
  assert (Hlt : forall y, In y (withdrawal_requests (db s)) ->
            WithdrawalRequest.id y < WithdrawalRequest.id row)
    by (intros y Hy; apply below_next_id; exact Hy).
  assert (Hfind : find_withdrawal i (db s1) = Some row)
    by (change i with (WithdrawalRequest.id row);
        apply (find_withdrawal_appended (db s)); [exact Hlt | unfold s1; rewrite Hs; reflexivity]).
  assert (Hf1 : faults s1 = []) by (unfold s1; rewrite Hs; exact Hf).
  assert (He1 : env s1 = env s) by (unfold s1; rewrite Hs; reflexivity).
  exists (mkWithdrawalResult true (Some row)
       (withdrawal_message amount (withdrawal_fee amount)
          ((amount - withdrawal_fee amount) * usdc_to_usd_rate)) (Some arrival)), row.
  split; [rewrite Hs; reflexivity|]; split; [reflexivity|]; split.
  - unfold getWithdrawalStatus, query; unfold conn_execute, conn_db, conn_env, Connection_St, run_and_save; rewrite Hfind; reflexivity.
  - destruct s1 as [d1 e1 f1]; cbn [faults env db] in Hf1, He1, Hfind; subst f1 e1.
    unfold completeWithdrawal, bind, get_env, execute, query; unfold conn_execute, conn_db, conn_env, Connection_St, run_and_save; cbn [faults db env fst].
    rewrite find_withdrawal_complete, Hfind; cbn [option_map].
    eexists; repeat split.
Qed.

Lemma withdrawal_lifecycle_witness :
  exists res row,
    fst (initiateWithdrawal 1 1 200 1760868000000 "Wednesday, Oct 22"
           Scenario.s_failed_withdrawal) = Ok res /\
    w_request res = Some row /\
    getWithdrawalStatus 2 (snd (initiateWithdrawal 1 1 200 1760868000000
                                  "Wednesday, Oct 22" Scenario.s_failed_withdrawal)) =
      (Ok (Some row), snd (initiateWithdrawal 1 1 200 1760868000000 "Wednesday, Oct 22"
                             Scenario.s_failed_withdrawal)).
Proof.
  destruct (withdrawal_lifecycle 1 1 200 1760868000000 "Wednesday, Oct 22"
              Scenario.s_failed_withdrawal eq_refl ltac:(lia))
    as (res & row & H1 & H2 & H3 & _).
  exists res, row; split; [exact H1|]; split; [exact H2|exact H3].
Defined.

(** * History queries *)

Section Ordering.
Context {R : Type} (key : R -> string).

Lemma leb_flip x y : String.leb x y = false -> String.leb y x = true.
Proof. intros H; destruct (String.leb_total x y) as [H'|H']; congruence. Qed.

Lemma insert_desc_perm x l : Permutation (insert_desc key x l) (x :: l).
Proof.
  induction l as [|y l IH]; simpl; [reflexivity|].
  destruct (String.leb (key y) (key x)); [reflexivity|].
  eapply perm_trans; [apply perm_skip; exact IH | apply perm_swap].
Qed.

Lemma sort_desc_perm l : Permutation (sort_desc key l) l.
Proof.
  induction l as [|x l IH]; simpl; [reflexivity|].
  eapply perm_trans; [apply insert_desc_perm | apply perm_skip; exact IH].
Qed.

Lemma insert_desc_sorted x l :
  Sorted (newer_first key) l -> Sorted (newer_first key) (insert_desc key x l).
Proof.
  induction l as [|y l IH]; intros H; simpl.
  - constructor; constructor.
  - destruct (String.leb (key y) (key x)) eqn:E.
    + constructor; [exact H | constructor; exact E].
    + apply Sorted_inv in H; destruct H as [Hl Hy].
      constructor; [apply IH; exact Hl|].
      destruct l as [|z l']; simpl.
      * constructor; apply leb_flip; exact E.
      * destruct (String.leb (key z) (key x)); constructor;
          [apply leb_flip; exact E | inversion Hy; assumption].
Qed.

Lemma sort_desc_sorted l : Sorted (newer_first key) (sort_desc key l).
Proof.
  induction l as [|x l IH]; simpl; [constructor|].
  apply insert_desc_sorted; exact IH.
Qed.

Lemma firstn_sorted n l : Sorted (newer_first key) l -> Sorted (newer_first key) (firstn n l).
Proof.
  revert n; induction l as [|x l IH]; intros n H; destruct n as [|n]; simpl;
    [constructor | constructor | constructor |].
  apply Sorted_inv in H; destruct H as [Hl Hx].
  constructor; [apply IH; exact Hl|].
  destruct n as [|n]; destruct l as [|y l']; simpl; try constructor.
  inversion Hx; assumption.
Qed.

Lemma in_firstn {A} n (l : list A) x : In x (firstn n l) -> In x l.
Proof.
  intros H; rewrite <- (firstn_skipn n l); apply in_or_app; left; exact H.
Qed.

(** A page of [SELECT ... WHERE p ORDER BY key DESC LIMIT lim]. *)
Lemma ordered_page_spec (p : R -> bool) (lim : Z) (l : list R) :
  let res := sql_limit lim (sort_desc key (filter p l)) in
  (forall r, In r res -> In r l /\ p r = true) /\
  List.length res = (if lim <? 0 then List.length (filter p l)
                     else Nat.min (Z.to_nat lim) (List.length (filter p l))) /\
  Sorted (newer_first key) res /\
  (lim < 0 -> Permutation res (filter p l)).
Proof.
  intros res.
  assert (Hin : forall r, In r (sort_desc key (filter p l)) -> In r l /\ p r = true).
  { intros r Hr; apply filter_In.
    apply (Permutation_in _ (sort_desc_perm (filter p l))); exact Hr. }
  unfold res, sql_limit; destruct (lim <? 0) eqn:Hlim.
  - repeat split.
    + apply Hin; assumption.
    + apply Hin; assumption.
    + apply Permutation_length, sort_desc_perm.
    + apply sort_desc_sorted.
    + intros _; apply sort_desc_perm.
  - repeat split.
    + apply Hin, (in_firstn (Z.to_nat lim)); assumption.
    + apply Hin, (in_firstn (Z.to_nat lim)); assumption.
    + rewrite length_firstn, (Permutation_length (sort_desc_perm _)); reflexivity.
    + apply firstn_sorted, sort_desc_sorted.
    + intros Hneg; apply Z.ltb_nlt in Hlim; lia.
Qed.
End Ordering.

(** [getTransactionsByWallet] (behind [getHistory]) is a read: it returns
    only rows the wallet sent or received, at most [limit] of them (every
    such row when [limit] is negative, which SQLite reads as no limit),
    newest first, and leaves the state as it was. *)
Theorem history_rows_of_wallet (walletId limit : Z) (s : St) :
  exists rows,
    getTransactionsByWallet walletId limit s = (Ok rows, s) /\
    (forall r, In r rows ->
       In r (transactions (db s)) /\
       (Transaction.from_wallet_id r = walletId \/
        Transaction.to_wallet_id r = Some walletId)) /\
    List.length rows =
      (if limit <? 0 then List.length (filter (involves walletId) (transactions (db s)))
       else Nat.min (Z.to_nat limit)
              (List.length (filter (involves walletId) (transactions (db s))))) /\
    Sorted (newer_first Transaction.created_at) rows /\
    (limit < 0 -> Permutation rows (filter (involves walletId) (transactions (db s)))).
Proof.
  destruct (ordered_page_spec Transaction.created_at (involves walletId) limit
              (transactions (db s))) as (Hin & Hlen & Hsort & Hall).
  eexists; split; [reflexivity|].
  split; [|split; [exact Hlen | split; [exact Hsort | exact Hall]]].
  intros r Hr; destruct (Hin r Hr) as [Hr' Hp]; split; [exact Hr'|].
  unfold involves in Hp; apply orb_true_iff in Hp; destruct Hp as [Hp|Hp].
  - left; apply Z.eqb_eq; exact Hp.
  - right; destruct (Transaction.to_wallet_id r); [|discriminate].
    apply Z.eqb_eq in Hp; congruence.
Qed.

(** [getWithdrawalHistory] is a read returning only the user's requests,
    at most [limit] of them, newest first; with a negative [limit] it
    returns every request of the user, each exactly once. *)
Theorem withdrawal_history_of_user (userId limit : Z) (s : St) :
  exists rows,
    getWithdrawalHistory userId limit s = (Ok rows, s) /\
    (forall r, In r rows ->
       In r (withdrawal_requests (db s)) /\ WithdrawalRequest.user_id r = userId) /\
    List.length rows =
      (if limit <? 0
       then List.length (filter (fun r => WithdrawalRequest.user_id r =? userId)
                           (withdrawal_requests (db s)))
       else Nat.min (Z.to_nat limit)
              (List.length (filter (fun r => WithdrawalRequest.user_id r =? userId)
                              (withdrawal_requests (db s))))) /\
    Sorted (newer_first WithdrawalRequest.created_at) rows /\
    (limit < 0 ->
     Permutation rows (filter (fun r => WithdrawalRequest.user_id r =? userId)
                         (withdrawal_requests (db s)))).
Proof.
  destruct (ordered_page_spec WithdrawalRequest.created_at
              (fun r => WithdrawalRequest.user_id r =? userId) limit
              (withdrawal_requests (db s))) as (Hin & Hlen & Hsort & Hperm).
  eexists; split; [reflexivity|].
  split; [|split; [exact Hlen | split; [exact Hsort | exact Hperm]]].
  intros r Hr; destruct (Hin r Hr) as [Hr' Hp]; split; [exact Hr'|].
  apply Z.eqb_eq; exact Hp.
Qed.

(** * Users and wallets *)

Lemma find_none_existsb {A} (p : A -> bool) (l : list A) :
  find p l = None -> existsb p l = false.
Proof.
  induction l as [|x l IH]; simpl; [reflexivity|].
  destruct (p x); [discriminate | exact IH].
Qed.

Lemma find_some_existsb {A} (p : A -> bool) (l : list A) x :
  find p l = Some x -> existsb p l = true.
Proof.
  induction l as [|y l IH]; simpl; [discriminate|].
  destruct (p y); [reflexivity | exact IH].
Qed.

Lemma find_user_set t un n a :
  find_user t (set_username t un n a) =
  option_map (fun u => User.mk (User.id u) (User.telegram_id u) un (User.created_at u) n)
    (find_user t a).
Proof.
  unfold find_user, set_username; cbn [users].
  rewrite find_map_same.
  - destruct (find _ (users a)) as [u|] eqn:E; simpl; [|reflexivity].
    apply find_some_true in E; rewrite E; reflexivity.
  - intros x; destruct (String.eqb (User.telegram_id x) t) eqn:E;
      cbn [User.telegram_id]; exact E.
Qed.

Lemma createUser_spec t un n a :
  exists u,
    fst (createUser t un n a) = Ok (Some u) /\
    find_user t (snd (createUser t un n a)) = Some u /\
    User.telegram_id u = t /\ User.telegram_username u = str_or_null un /\
    match find_user t a with
    | Some x => User.id u = User.id x /\
                List.length (users (snd (createUser t un n a))) = List.length (users a)
    | None => List.length (users (snd (createUser t un n a))) = S (List.length (users a))
    end.
Proof.
  unfold createUser; destruct (find_user t a) as [x|] eqn:E.
  - pose proof (find_some_true _ _ _ E) as Hx; apply String.eqb_eq in Hx.
    cbv zeta; cbn [fst snd]; rewrite !find_user_set, !E; cbn [option_map].
    eexists; split; [reflexivity|]; split; [reflexivity|].
    repeat split; [exact Hx|].
    unfold set_username; cbn [users]; apply length_map.
  - unfold insert_user.
    rewrite (find_none_existsb _ _ E).
    cbn [fst snd].
    unfold find_user at 1 2; cbn [users].
    rewrite find_app_single by exact E; cbn [User.telegram_id].
    rewrite String.eqb_refl.
    eexists; split; [reflexivity|]; split; [reflexivity|].
    repeat split.
    rewrite length_app; simpl; lia.
Qed.

(** Registering the same Telegram id again keeps the user: the second
    [createUser] returns the row with the id the first one returned, with
    the new username, and adds no row. *)
Theorem createUser_idempotent (t : string) (un1 un2 : option string) (n1 n2 : string)
    (a : Accounts) :
  let a1 := snd (createUser t un1 n1 a) in
  exists u1 u2,
    fst (createUser t un1 n1 a) = Ok (Some u1) /\
    fst (createUser t un2 n2 a1) = Ok (Some u2) /\
    User.id u2 = User.id u1 /\
    User.telegram_username u2 = str_or_null un2 /\
    List.length (users (snd (createUser t un2 n2 a1))) = List.length (users a1).
Proof.
  intros a1.
  destruct (createUser_spec t un1 n1 a) as (u1 & H1 & Hf1 & _).
  destruct (createUser_spec t un2 n2 a1) as (u2 & H2 & _ & _ & Hn2 & Hm).
  fold a1 in Hf1; rewrite Hf1 in Hm; destruct Hm as [Hid Hlen].
  exists u1, u2; repeat split; assumption.
Qed.

(** [createUser] returns the row [getUserByTelegramId] then reads, under
    the Telegram id it was given; a new id adds exactly one user. *)
Theorem createUser_then_lookup (t : string) (un : option string) (n : string)
    (a : Accounts) :
  exists u,
    fst (createUser t un n a) = Ok (Some u) /\
    getUserByTelegramId t (snd (createUser t un n a)) = Some u /\
    User.telegram_id u = t /\
    (getUserByTelegramId t a = None ->
     List.length (users (snd (createUser t un n a))) = S (List.length (users a))).
Proof.
  destruct (createUser_spec t un n a) as (u & H & Hf & Ht & _ & Hm).
  exists u; repeat split; try assumption.
  intros Hnone; unfold getUserByTelegramId in Hnone; rewrite Hnone in Hm; exact Hm.
Qed.

Lemma createWallet_fresh_key (userId : Z) (pk sk : string) (ty : WalletType)
    (label : option string) (n : string) (a : Accounts) :
  getWalletByPublicKey pk a = None ->
  exists x,
    fst (createWallet userId pk sk ty label n a) = Ok (Some x) /\
    wallets (snd (createWallet userId pk sk ty label n a)) = (wallets a ++ [x])%list /\
    users (snd (createWallet userId pk sk ty label n a)) = users a /\
    getWalletByPublicKey pk (snd (createWallet userId pk sk ty label n a)) = Some x /\
    WalletRow.user_id x = userId /\ WalletRow.public_key x = pk /\
    WalletRow.wallet_type x = ty /\ WalletRow.label x = str_or_null label /\
    WalletRow.is_active x = 1.
Proof.
  intros Hk.
  unfold createWallet, insert_wallet.
  rewrite (find_none_existsb _ _ Hk); cbn [fst snd].
  unfold getWalletByPublicKey, find_wallet_by_key in *; cbn [wallets users].
  rewrite find_app_single by exact Hk; cbn [WalletRow.public_key].
  rewrite String.eqb_refl.
  eexists; split; [reflexivity|]; split; [reflexivity|]; split; [reflexivity|].
  split; [reflexivity|repeat split].
Qed.

(** A public key already on file makes [createWallet] throw the UNIQUE
    violation, with the store unchanged. *)
Theorem createWallet_duplicate_key (userId : Z) (pk sk : string) (ty : WalletType)
    (label : option string) (n : string) (a : Accounts) (x : WalletRow.t) :
  getWalletByPublicKey pk a = Some x ->
  createWallet userId pk sk ty label n a = (Err (unique_violation "wallets.public_key"), a).
Proof.
  intros H; unfold createWallet, insert_wallet.
  rewrite (find_some_existsb _ _ _ H); reflexivity.
Qed.

Lemma createWallet_duplicate_key_witness :
  let a := mkAccounts [User.mk 1 "42" None "2026-10-19 10:00:00" "2026-10-19 10:00:00"]
             [WalletRow.mk 1 1 "AliceWa11et" "enc" Human None 1 "2026-10-19 10:00:00"] 1 1 in
  createWallet 1 "AliceWa11et" "enc2" Agent (Some "bot") "2026-10-19 11:00:00" a =
  (Err (unique_violation "wallets.public_key"), a).
Proof.
  intros a.
  apply (createWallet_duplicate_key 1 "AliceWa11et" "enc2" Agent (Some "bot")
           "2026-10-19 11:00:00" a
           (WalletRow.mk 1 1 "AliceWa11et" "enc" Human None 1 "2026-10-19 10:00:00")).
  reflexivity.
Defined.

(** With a fresh key but no user with that id, [createWallet] still
    inserts the wallet, owned by the missing user id, and returns it: the
    foreign key on [wallets.user_id] is not enforced. *)
Theorem createWallet_unknown_user_accepted (userId : Z) (pk sk : string) (ty : WalletType)
    (label : option string) (n : string) (a : Accounts) :
  getWalletByPublicKey pk a = None ->
  (forall u, In u (users a) -> User.id u <> userId) ->
  exists x,
    fst (createWallet userId pk sk ty label n a) = Ok (Some x) /\
    wallets (snd (createWallet userId pk sk ty label n a)) = (wallets a ++ [x])%list /\
    users (snd (createWallet userId pk sk ty label n a)) = users a /\
    WalletRow.user_id x = userId /\ WalletRow.public_key x = pk.
Proof.
  intros Hk _; destruct (createWallet_fresh_key userId pk sk ty label n a Hk)
    as (x & Hx & Hw & Hu & _ & Hid & Hpk & _).
  exists x; split; [exact Hx|split; [exact Hw|split; [exact Hu|split; assumption]]].
Qed.

Lemma createWallet_unknown_user_accepted_witness :
  let a := mkAccounts [User.mk 1 "42" None "2026-10-19 10:00:00" "2026-10-19 10:00:00"]
             [] 1 0 in
  fst (createWallet 7 "BobWa11et" "enc" Human None "2026-10-19 11:00:00" a) =
  Ok (Some (WalletRow.mk 1 7 "BobWa11et" "enc" Human None 1 "2026-10-19 11:00:00")).
Proof.
  intros a.
  destruct (createWallet_unknown_user_accepted 7 "BobWa11et" "enc" Human None
              "2026-10-19 11:00:00" a eq_refl)
    as (x & Hx & _); [intros u [<-|[]]; simpl; lia|].
  rewrite Hx; vm_compute in Hx; injection Hx as <-; reflexivity.
Defined.

(** For a known user and a fresh key, [createWallet] appends one active
    wallet, returns it, and both [getWalletByPublicKey] and
    [getWalletsByUserId] find it afterwards. *)
Theorem createWallet_then_lookup (userId : Z) (pk sk : string) (ty : WalletType)
    (label : option string) (n : string) (a : Accounts) :
  getWalletByPublicKey pk a = None ->
  (exists u, In u (users a) /\ User.id u = userId) ->
  exists x,
    fst (createWallet userId pk sk ty label n a) = Ok (Some x) /\
    wallets (snd (createWallet userId pk sk ty label n a)) = (wallets a ++ [x])%list /\
    getWalletByPublicKey pk (snd (createWallet userId pk sk ty label n a)) = Some x /\
    In x (getWalletsByUserId userId (snd (createWallet userId pk sk ty label n a))) /\
    WalletRow.user_id x = userId /\ WalletRow.public_key x = pk /\
    WalletRow.wallet_type x = ty /\ WalletRow.label x = str_or_null label /\
    WalletRow.is_active x = 1.
Proof.
  intros Hk _.
  destruct (createWallet_fresh_key userId pk sk ty label n a Hk)
    as (x & Hx & Hw & _ & Hl & Hid & Hpk & Hty & Hlab & Hact).
  exists x; split; [exact Hx|]; split; [exact Hw|]; split; [exact Hl|].
  split; [|repeat split; assumption].
  unfold getWalletsByUserId; rewrite Hw.
  apply filter_In; split.
  - apply in_or_app; right; left; reflexivity.
  - rewrite Hid, Z.eqb_refl, Hact; reflexivity.
Qed.

Lemma createWallet_then_lookup_witness :
  let a := mkAccounts [User.mk 1 "42" None "2026-10-19 10:00:00" "2026-10-19 10:00:00"]
             [] 1 0 in
  getWalletByPublicKey "AliceWa11et"
    (snd (createWallet 1 "AliceWa11et" "enc" Human (Some "") "2026-10-19 11:00:00" a)) =
  Some (WalletRow.mk 1 1 "AliceWa11et" "enc" Human None 1 "2026-10-19 11:00:00").
Proof.
  intros a.
  destruct (createWallet_then_lookup 1 "AliceWa11et" "enc" Human (Some "")
              "2026-10-19 11:00:00" a eq_refl
              (ex_intro _ (User.mk 1 "42" None "2026-10-19 10:00:00" "2026-10-19 10:00:00")
                 (conj (or_introl eq_refl) eq_refl)))
    as (x & Hx & _ & Hl & _).
  rewrite Hl; vm_compute in Hx; injection Hx as <-; reflexivity.
Defined.
